(** * FTAI memory store: ingestion, retrieval and prompt assembly

    A shallow embedding of [src/DB/ftai_memory.py] (functions
    [add_ftai_file], [get_context] and [inject_prompt_memory], with the
    [documents] table created by [init_db]) and the properties of the
    specification that concern them.

    Conventions of the embedding:
    - a Python [str] is a list of Unicode code points ([text]); ASCII
      literals are written with [py];
    - the file system and the clock are inputs of [add_ftai_file]; the
      database is threaded explicitly (state passing);
    - a Python call either returns a value or raises ([outcome]). *)

From Stdlib Require Import Ascii String.
From Stdlib Require Import List Bool Arith NArith ZArith Lia.
From Stdlib Require Import Sorting.Sorted Sorting.Permutation.
From Stdlib Require Import Numbers.DecimalString.
From Stdlib Require Numbers.DecimalNat.
Import ListNotations.

(** ** Text *)

Definition char := N.
Definition text := list char.

(** An ASCII literal as Python text. *)
Definition py (s : string) : text := map N_of_ascii (list_ascii_of_string s).
Arguments py s%_string.

Definition char_eqb (a b : char) : bool := N.eqb a b.

Fixpoint text_eqb (a b : text) : bool :=
  match a, b with
  | [], [] => true
  | x :: a', y :: b' => char_eqb x y && text_eqb a' b'
  | _, _ => false
  end.

Definition AT : char := 64%N.          (* "@" *)
Definition COMMA : char := 44%N.       (* "," *)
Definition QUOTE : char := 39%N.       (* "'" *)
Definition PERCENT : char := 37%N.     (* "%" *)
Definition UNDERSCORE : char := 95%N.  (* "_" *)
Definition SLASH : char := 47%N.       (* "/" *)
Definition NEWLINE : char := 10%N.
Definition DQUOTE : char := 34%N.

(** [sep.join(parts)] *)
Fixpoint str_join (sep : text) (parts : list text) : text :=
  match parts with
  | [] => []
  | [p] => p
  | p :: rest => p ++ sep ++ str_join sep rest
  end.

(** [s.split(c)] for a one-character separator: the fields between the
    occurrences of [c]; always at least one field. *)
Fixpoint str_split (c : char) (s : text) : list text :=
  match s with
  | [] => [[]]
  | x :: s' =>
      if char_eqb x c then [] :: str_split c s'
      else match str_split c s' with
           | [] => [[x]]
           | f :: fs => (x :: f) :: fs
           end
  end.

(** [os.path.basename(p)]: what follows the last "/" of [p]. *)
Fixpoint basename (p : text) : text :=
  match p with
  | [] => []
  | x :: p' =>
      if existsb (char_eqb SLASH) p' then basename p'
      else if char_eqb x SLASH then p' else p
  end.

(** [str(n)] for a non-negative integer, as [json.dumps] prints it. *)
Definition decimal (n : nat) : text :=
  py (NilEmpty.string_of_uint (Nat.to_uint n)).

(** ** The regular expression [@(\w+)] *)

Definition in_range (lo hi c : char) : bool := (N.leb lo c && N.leb c hi)%bool.

Definition ascii_word (c : char) : bool :=
  in_range 48%N 57%N c || in_range 65%N 90%N c || in_range 97%N 122%N c
  || char_eqb c UNDERSCORE.

Fixpoint take_while (p : char -> bool) (s : text) : text :=
  match s with
  | [] => []
  | x :: s' => if p x then x :: take_while p s' else []
  end.


(** ** The [documents] table

    [CREATE TABLE documents (id INTEGER PRIMARY KEY AUTOINCREMENT, title,
    ftai_type, content, parsed_json, tags, timestamp DATETIME DEFAULT
    CURRENT_TIMESTAMP)]. A timestamp is the text "YYYY-MM-DD HH:MM:SS",
    whose text order is the order of time; it is kept as a number of
    seconds. *)

Record document := {
  id : Z;
  title : text;
  ftai_type : text;
  content : text;
  parsed_json : text;
  tags : text;
  timestamp : Z
}.

(** The rows in rowid order, and the AUTOINCREMENT counter that SQLite
    keeps in [sqlite_sequence]. *)
Record database := {
  documents : list document;
  sqlite_sequence : Z
}.

Definition max_rowid (rows : list document) : Z :=
  fold_right (fun d m => Z.max (id d) m) 0%Z rows.

(** AUTOINCREMENT: one more than the largest rowid the table has ever held. *)
Definition next_rowid (db : database) : Z :=
  (Z.max (sqlite_sequence db) (max_rowid (documents db)) + 1)%Z.

(** [INSERT INTO documents (title, ftai_type, content, parsed_json, tags)
    VALUES (?, ?, ?, ?, ?)] followed by [commit]; [now] is the value of
    CURRENT_TIMESTAMP. *)
Definition insert_document (now : Z) (title_ ftai_type_ content_ parsed_json_ tags_ : text)
    (db : database) : database :=
  let rowid := next_rowid db in
  {| documents := documents db ++
       [{| id := rowid; title := title_; ftai_type := ftai_type_;
           content := content_; parsed_json := parsed_json_; tags := tags_;
           timestamp := now |}];
     sqlite_sequence := rowid |}.

(** ** Python outcomes, files *)

Inductive exception :=
| OSError
| OverflowError
| UnicodeEncodeError
| ProgrammingError
| OperationalError.

Inductive outcome (A : Type) :=
| Returns (a : A)
| Raises (e : exception).
Arguments Returns {A} a.
Arguments Raises {A} e.

Definition outcome_map {A B : Type} (f : A -> B) (o : outcome A) : outcome B :=
  match o with
  | Returns a => Returns (f a)
  | Raises e => Raises e
  end.

(** What a path names: nothing ([None]), a file whose text [open] and
    [read] deliver, or something that exists but cannot be read as text
    (a directory, a file without permission or with undecodable bytes). *)
Inductive file :=
| Readable (raw : text)
| Unreadable.

Definition filesystem := text -> option file.

(** [json.dumps({"length": n, "tag_count": k})] *)
Definition json_dumps (length_ tag_count_ : nat) : text :=
  py "{" ++ [DQUOTE] ++ py "length" ++ [DQUOTE] ++ py ": " ++ decimal length_
  ++ py ", " ++ [DQUOTE] ++ py "tag_count" ++ [DQUOTE] ++ py ": "
  ++ decimal tag_count_ ++ py "}".


(** ** Retrieval *)

(** SQLite's LIKE: "%" matches any run of characters, "_" any one
    character, every other character itself, ASCII letters without regard
    to case. The statement has no ESCAPE clause. *)
Definition ascii_upper (c : char) : char :=
  if in_range 97%N 122%N c then (c - 32)%N else c.

Fixpoint like (pattern : text) : text -> bool :=
  match pattern with
  | [] => fun s => match s with [] => true | _ :: _ => false end
  | p :: pattern' =>
      if char_eqb p PERCENT then
        fix any_run (s : text) : bool :=
          like pattern' s ||
          match s with
          | [] => false
          | _ :: s' => any_run s'
          end
      else
        fun s =>
          match s with
          | [] => false
          | c :: s' =>
              (char_eqb p UNDERSCORE || char_eqb (ascii_upper p) (ascii_upper c))
              && like pattern' s'
          end
  end.

(** The WHERE clause: [tags LIKE '%t1%' OR tags LIKE '%t2%' OR ...]. *)
Definition tag_query (tags_ : list text) (d : document) : bool :=
  existsb (fun tag => like (PERCENT :: tag ++ [PERCENT]) (tags d)) tags_.

(** *** What the statement text is, before a row is read

    Every tag is pasted into the text between "tags LIKE '%" and "%'".
    [sqlite3] first encodes the text as UTF-8, which no surrogate code
    point has, and refuses a text with a NUL character; SQLite then
    compiles it. *)

Definition NUL : char := 0%N.

(** The code points of a Python [str] end at 0x10FFFF; those from 0xD800
    to 0xDFFF are the surrogates. *)
Definition is_code_point (c : char) : bool := N.leb c 1114111%N.

Definition is_surrogate (c : char) : bool := in_range 55296%N 57343%N c.

Definition utf8_bytes (c : char) : N :=
  if N.ltb c 128%N then 1%N
  else if N.ltb c 2048%N then 2%N
  else if N.ltb c 65536%N then 3%N
  else 4%N.

Definition utf8_length (s : text) : N :=
  fold_right (fun c n => (utf8_bytes c + n)%N) 0%N s.

(** A tag without a quote stays inside its string literal, whatever
    else it holds. *)
Definition quote_free (tag : text) : bool := negb (existsb (char_eqb QUOTE) tag).

Definition count_quotes (tag : text) : nat := length (filter (char_eqb QUOTE) tag).

(** SQLite evaluates LIKE for patterns of at most 50000 bytes
    (SQLITE_MAX_LIKE_PATTERN_LENGTH); the pattern is the tag between two
    percent signs. *)
Definition fits_like (tag : text) : bool := N.leb (utf8_length tag + 2)%N 50000%N.

(** ASCII letters, digits, underscore, space, percent sign and quote.
    In a text made of these the only tokens that hold a quote are string
    and blob literals, and each of them, when it is closed, holds an even
    number of quotes. *)
Definition simple_char (c : char) : bool :=
  ascii_word c || char_eqb c 32%N || char_eqb c PERCENT || char_eqb c QUOTE.

(** The WHERE clause that the tags give when the statement is compiled,
    or the exception that the statement text meets; [None] where this
    model does not say.
    - a chain of 1000 or more OR terms exceeds the depth that SQLite
      allows for an expression (SQLITE_MAX_EXPR_DEPTH);
    - a tag with a quote ends its literal early: the rest of the tag is
      read as SQL. When the tags are made of simple characters and hold
      an odd number of quotes, the last literal of the text is never
      closed and the text is refused. Other texts of this kind may be
      refused or run as another statement: [None]. *)
Definition prepare_tags (ts : list text) : option (outcome (document -> bool)) :=
  if negb (forallb (forallb is_code_point) ts) then None
  else if existsb (existsb is_surrogate) ts then Some (Raises UnicodeEncodeError)
  else if existsb (existsb (char_eqb NUL)) ts then Some (Raises ProgrammingError)
  else if forallb quote_free ts then
    if (1000 <=? Z.of_nat (length ts))%Z then Some (Raises OperationalError)
    else Some (Returns (tag_query ts))
  else if forallb (forallb simple_char) ts
          && Nat.odd (list_sum (map count_quotes ts))
  then Some (Raises OperationalError)
  else None.

(** A pattern that is too long is refused when a row is tested against
    it. With a single tag that happens as soon as the table has a row
    and the limit is not 0; with several tags it depends on which rows
    the earlier patterns match. *)
Definition like_refuses (ts : list text) (db : database) (limit : Z) : bool :=
  match ts, documents db with
  | [tag], _ :: _ => negb (fits_like tag) && negb (limit =? 0)%Z
  | _, _ => false
  end.

(** [ORDER BY timestamp DESC]. SQL leaves the order of rows with equal
    timestamps open; the sort here is stable, so they stay in rowid order. *)
Fixpoint insert_desc (d : document) (rows : list document) : list document :=
  match rows with
  | [] => [d]
  | e :: rows' =>
      if (timestamp e <=? timestamp d)%Z then d :: rows
      else e :: insert_desc d rows'
  end.

Definition order_by_timestamp_desc (rows : list document) : list document :=
  fold_right insert_desc [] rows.

(** [LIMIT n]: a negative [n] means no bound. *)
Definition sql_limit (n : Z) (rows : list document) : list document :=
  if (n <? 0)%Z then rows else firstn (Z.to_nat n) rows.

(** The value bound to "?" must fit SQLite's 64-bit INTEGER. *)
Definition fits_int64 (n : Z) : bool :=
  ((- 2 ^ 63 <=? n) && (n <? 2 ^ 63))%Z.

(** [SELECT title, content] *)
Definition title_content (d : document) : text * text := (title d, content d).

(** [cursor.execute(query, (limit,))] and [fetchall] on the rows that the
    WHERE clause keeps: the limit is bound after the statement is
    compiled. *)
Definition select_rows (rows : list document) (limit : Z)
    : outcome (list (text * text)) :=
  if fits_int64 limit
  then Returns (map title_content (sql_limit limit (order_by_timestamp_desc rows)))
  else Raises OverflowError.

(** [get_context(tags, limit)]; [None] where the model does not say what
    the statement does. *)
Definition get_context (db : database) (tags_ : option (list text)) (limit : Z)
    : option (outcome (list (text * text))) :=
  match tags_ with
  | Some ((_ :: _) as ts) =>
      match prepare_tags ts with
      | None => None
      | Some (Raises e) => Some (Raises e)
      | Some (Returns where_clause) =>
          if forallb fits_like ts
          then Some (select_rows (filter where_clause (documents db)) limit)
          else if negb (fits_int64 limit) then Some (Raises OverflowError)
          else if like_refuses ts db limit then Some (Raises OperationalError)
          else None
      end
  | _ => Some (select_rows (documents db) limit)
  end.

(** ** Prompt assembly *)

(** [f"# {title}\n{content}\n"] *)
Definition block (entry : text * text) : text :=
  py "# " ++ fst entry ++ [NEWLINE] ++ snd entry ++ [NEWLINE].

Definition SEPARATOR : text := [NEWLINE] ++ py "---" ++ [NEWLINE].

(** The last two lines of [inject_prompt_memory], on the entries that
    [get_context] returned. *)
Definition assemble (entries : list (text * text)) : text :=
  str_join SEPARATOR (map block entries).

Definition inject_prompt_memory (db : database) (tags_ : option (list text))
    (limit : Z) : option (outcome text) :=
  option_map (outcome_map assemble) (get_context db tags_ limit).

(** ** What the specification says of retrieval *)

(** Newest first: no row is older than a row that comes before it. *)
Definition newer_or_equal (a b : document) : Prop :=
  (timestamp b <= timestamp a)%Z.

Definition newest_first (rows : list document) : Prop :=
  StronglySorted newer_or_equal rows.

(** The stored tag string contains the tag as a substring. *)
Definition contains (sub s : text) : Prop :=
  exists pre post, s = pre ++ sub ++ post.

Fixpoint starts_with (sub s : text) : bool :=
  match sub, s with
  | [], _ => true
  | x :: sub', y :: s' => char_eqb x y && starts_with sub' s'
  | _ :: _, [] => false
  end.

Fixpoint containsb (sub s : text) : bool :=
  starts_with sub s ||
  match s with
  | [] => false
  | _ :: s' => containsb sub s'
  end.

(** The tag lists for which the statement text is the one intended:
    fewer than 1000 tags, each of them a Python string without quote,
    NUL and surrogate whose pattern is not too long for LIKE. *)
Definition plain_char (c : char) : bool :=
  is_code_point c && negb (is_surrogate c) && negb (char_eqb NUL c)
  && negb (char_eqb QUOTE c).

Definition plain_tag (tag : text) : bool := forallb plain_char tag && fits_like tag.

Definition plain_tags (ts : list text) : bool :=
  (Z.of_nat (length ts) <? 1000)%Z && forallb plain_tag ts.

Definition plain_request (tags_ : option (list text)) : bool :=
  match tags_ with
  | Some ts => plain_tags ts
  | None => true
  end.

(** The rows that the WHERE clause of a plain request keeps. *)
Definition rows_for (db : database) (tags_ : option (list text)) : list document :=
  match tags_ with
  | Some ((_ :: _) as ts) => filter (tag_query ts) (documents db)
  | _ => documents db
  end.

(** The number that a text of decimal digits writes. *)
Fixpoint digits_value (acc : nat) (ds : text) : option nat :=
  match ds with
  | [] => Some acc
  | c :: ds' =>
      if in_range 48%N 57%N c
      then digits_value (10 * acc + N.to_nat (c - 48)) ds'
      else None
  end.

Definition number_of (ds : text) : option nat :=
  match ds with
  | [] => None
  | _ :: _ => digits_value 0 ds
  end.

(** A tag in which LIKE finds no wildcard. *)
Definition wildcard_free (tag : text) : bool :=
  forallb (fun c => negb (char_eqb c PERCENT || char_eqb c UNDERSCORE)) tag.

Definition upper (s : text) : text := map ascii_upper s.

(** ** Sample data *)

(** A file system with three entries, used to run the operations on
    concrete inputs; no code point beyond ASCII occurs in it, so the
    table of Unicode word characters is never consulted. *)
Definition ascii_only : char -> bool := fun _ => false.

Definition sample_fs : filesystem := fun p =>
  if text_eqb p (py "/notes/a.ftai")
  then Some (Readable (py "@lore Serena discovers the bloom"))
  else if text_eqb p (py "/notes/plain.ftai")
  then Some (Readable (py "no markers here"))
  else if text_eqb p (py "/notes/u.ftai")
  then Some (Readable (py "@unknown origin"))
  else if text_eqb p (py "/notes/x.ftai")
  then Some (Readable (py "@axb then @LORE"))
  else if text_eqb p (py "/notes")
  then Some Unreadable
  else None.

Definition empty_db : database := {| documents := []; sqlite_sequence := 0 |}.

(** The store after the ingestion of a.ftai, x.ftai and plain.ftai at
    the times 100, 200 and 300. *)
Definition sample_db : database :=
  {| documents :=
       [{| id := 1; title := py "a.ftai"; ftai_type := py "@lore";
           content := py "@lore Serena discovers the bloom";
           parsed_json := json_dumps 32 1; tags := py "lore"; timestamp := 100 |};
        {| id := 2; title := py "x.ftai"; ftai_type := py "@axb";
           content := py "@axb then @LORE";
           parsed_json := json_dumps 15 2; tags := py "axb,LORE"; timestamp := 200 |};
        {| id := 3; title := py "plain.ftai"; ftai_type := py "@unknown";
           content := py "no markers here";
           parsed_json := json_dumps 15 1; tags := []; timestamp := 300 |}];
     sqlite_sequence := 3 |}.

(** A tag of 49999 letters and a list of 1000 tags. *)
Definition long_tag : text := N.iter 49999%N (cons 97%N) [].

Definition thousand_tags : list text := N.iter 1000%N (cons (py "lore")) [].

(** The second row of [sample_db]. *)
Definition sample_row_x : document :=
  {| id := 2; title := py "x.ftai"; ftai_type := py "@axb";
     content := py "@axb then @LORE";
     parsed_json := json_dumps 15 2; tags := py "axb,LORE"; timestamp := 200 |}.

(** ** Schema creation

    The source file holds several scripts one after the other; the
    first creates the tables of folk_mind.db, the second those of
    serena_memory.db. *)

(** A value that SQLite keeps in a column. *)
Inductive sql_value := Null | Integer (z : Z) | Text (t : text).

(** [CREATE TABLE IF NOT EXISTS]: a table that is absent is created
    empty, a table that is present is left as it is. *)
Definition create_table_if_not_exists {A : Type} (empty : A) (t : option A)
    : option A :=
  match t with
  | Some present => Some present
  | None => Some empty
  end.

(** What [execute] does with a statement: it runs, or SQLite refuses it
    because the table it names does not exist (the call then raises
    [sqlite3.OperationalError] and nothing is written). *)
Inductive sqlite_call (A : Type) :=
| Completed (o : outcome A)
| NoSuchTable.
Arguments Completed {A} o.
Arguments NoSuchTable {A}.

Module FolkMind.

(** The file folk_mind.db: the four tables that the first [init_db]
    creates. A table that is present has the columns that [init_db]
    gives it. The script writes to [documents] only; the rows of the
    other tables are lists of column values. *)
Record file := {
  documents_table : option database;
  user_preferences : option (list (list sql_value));
  notes : option (list (list sql_value));
  tasks : option (list (list sql_value))
}.

Definition fresh : file :=
  {| documents_table := None; user_preferences := None;
     notes := None; tasks := None |}.

Definition init_db (f : file) : file :=
  {| documents_table := create_table_if_not_exists empty_db (documents_table f);
     user_preferences := create_table_if_not_exists [] (user_preferences f);
     notes := create_table_if_not_exists [] (notes f);
     tasks := create_table_if_not_exists [] (tasks f) |}.

Definition with_documents (db : database) (f : file) : file :=
  {| documents_table := Some db; user_preferences := user_preferences f;
     notes := notes f; tasks := tasks f |}.

End FolkMind.

Module SerenaMemory.

(** A row of [memory_archive (id INTEGER PRIMARY KEY AUTOINCREMENT,
    category, title, content, tags, created_at TIMESTAMP DEFAULT
    CURRENT_TIMESTAMP)]. *)
Record memory := {
  id : Z;
  category : text;
  title : text;
  content : text;
  tags : text;
  created_at : Z
}.

Record archive := {
  memories : list memory;
  sequence : Z
}.

Definition empty_archive : archive := {| memories := []; sequence := 0 |}.

(** The file serena_memory.db: the six tables that the second [init_db]
    creates (two of them FTS5 virtual tables, which the SQLite at hand is
    taken to support). The script writes to [memory_archive] only. *)
Record file := {
  knowledge_base : option (list (list sql_value));
  documents : option (list (list sql_value));
  notes : option (list (list sql_value));
  memory_archive : option archive;
  assistant_sessions : option (list (list sql_value));
  plugin_registry : option (list (list sql_value))
}.

Definition fresh : file :=
  {| knowledge_base := None; documents := None; notes := None;
     memory_archive := None; assistant_sessions := None;
     plugin_registry := None |}.

(** The tuples (category, title, content, tags) of the script. *)
Definition foundational_memories : list (text * text * text * text) :=
  [
   (py "Serena Saga", py "Book 1 Summary",
    py "Serena begins her journey in a divided world and discovers the Lore Bloom, unlocking access to a hidden AI realm.",
    py "book1,intro,lore");
   (py "Serena Saga", py "Book 2 Summary",
    py "Serena learns about AI ethics, duality of creation, and trains under mentors in the digital realm.",
    py "book2,training,ethics");
   (py "Serena Saga", py "Book 3 Summary",
    py "Serena returns to find the world ruled by a ruthless tech warlord. She reunites with Victoria and forms the resistance.",
    py "book3,return,conflict");
   (py "Serena Saga", py "Serena's Personality",
    py "Fierce, independent, intelligent, empathetic. Based on Christina. Strategist and warrior.",
    py "persona,character");
   (py "FolkTech History", py "Founder Background",
    py "Mike is the founder of FolkTech AI, a paramedic and educator with a deep passion for AI and automation.",
    py "mike,origin");
   (py "FolkTech History", py "FolkTech Vision",
    py "FolkTech aims to build scalable, privacy-first AI systems across healthcare, education, and productivity.",
    py "vision,core");
   (py "FolkTech History", py "Jake Overview",
    py "Jake is a home assistant focused on healthcare, fall detection, HIPAA-compliance, and smart automation.",
    py "product,jake");
   (py "FolkTech History", py "Serena Overview",
    py "Serena is a branded AI based on Mike" ++ [8218%N; 196%N; 244%N] ++ py "s wife, designed as a co-pilot, educator, and orchestration layer.",
    py "product,serena")
  ].

Definition next_id (a : archive) : Z :=
  (Z.max (sequence a) (fold_right (fun m acc => Z.max (id m) acc) 0 (memories a)) + 1)%Z.

(** [INSERT INTO memory_archive (category, title, content, tags) VALUES
    (?, ?, ?, ?)] at the time [now]. *)
Definition insert_memory (now : Z) (m : text * text * text * text) (a : archive)
    : archive :=
  let '(category_, title_, content_, tags_) := m in
  let rowid := next_id a in
  {| memories := memories a ++
       [{| id := rowid; category := category_; title := title_;
           content := content_; tags := tags_; created_at := now |}];
     sequence := rowid |}.

(** [executemany]: the tuples are inserted in order; [clock k] is the
    value of CURRENT_TIMESTAMP when tuple number [k] is inserted. *)
Fixpoint executemany (clock : nat -> Z) (k : nat)
    (ms : list (text * text * text * text)) (a : archive) : archive :=
  match ms with
  | [] => a
  | m :: ms' => executemany clock (S k) ms' (insert_memory (clock k) m a)
  end.

Definition init_db (clock : nat -> Z) (f : file) : file :=
  let archive_ :=
    match memory_archive f with
    | Some present => present
    | None => empty_archive
    end in
  {| knowledge_base := create_table_if_not_exists [] (knowledge_base f);
     documents := create_table_if_not_exists [] (documents f);
     notes := create_table_if_not_exists [] (notes f);
     memory_archive := Some (executemany clock 0 foundational_memories archive_);
     assistant_sessions := create_table_if_not_exists [] (assistant_sessions f);
     plugin_registry := create_table_if_not_exists [] (plugin_registry f) |}.

(** What a row holds besides its id and time. *)
Definition payload (m : memory) : text * text * text * text :=
  (category m, title m, content m, tags m).

End SerenaMemory.

(** ** Ingestion: the part that depends on the word characters *)

Section Memory.

(** Python 3 matches [\w] against Unicode word characters: the ASCII
    letters, digits and underscore, and beyond ASCII the code points
    for which [str.isalnum] holds. That table belongs to the Python
    runtime, so it is a parameter here. *)
Variable unicode_alnum : char -> bool.

Definition is_word (c : char) : bool :=
  if N.ltb c 128%N then ascii_word c else unicode_alnum c.

(** [re.findall(r'@(\w+)', s)]: the scan goes left to right; a match
    at "@" consumes the whole run of word characters after it and the
    scan resumes after that run. [skip] counts the characters of the
    last match that the scan has still to step over. *)
Fixpoint findall_from (skip : nat) (s : text) : list text :=
  match s with
  | [] => []
  | c :: rest =>
      match skip with
      | S k => findall_from k rest
      | O =>
          if char_eqb c AT then
            match take_while is_word rest with
            | [] => findall_from 0 rest
            | w => w :: findall_from (length w) rest
            end
          else findall_from 0 rest
      end
  end.

Definition findall (s : text) : list text := findall_from 0 s.

(** [re.search(r'@(\w+)', s)]: group 1 of the leftmost match, if any. *)
Fixpoint search (s : text) : option text :=
  match s with
  | [] => None
  | c :: rest =>
      if char_eqb c AT then
        match take_while is_word rest with
        | [] => search rest
        | w => Some w
        end
      else search rest
  end.

(** ** Ingestion *)

(** The tag list, the joined tag string, the type marker and the
    metadata that [add_ftai_file] derives from the text of a file. *)
Definition tags_of (raw : text) : text :=
  str_join [COMMA] (findall raw).

Definition ftai_type_of (raw : text) : text :=
  match search raw with
  | Some group1 => AT :: group1
  | None => py "@unknown"
  end.

Definition tag_count_of (raw : text) : nat :=
  length (str_split COMMA (tags_of raw)).

Definition parsed_json_of (raw : text) : text :=
  json_dumps (length raw) (tag_count_of raw).

Definition add_ftai_file (fs : filesystem) (now : Z) (file_path : text)
    (db : database) : outcome text * database :=
  match fs file_path with
  | None => (Returns (py "File not found: " ++ file_path), db)
  | Some Unreadable => (Raises OSError, db)
  | Some (Readable raw) =>
      let tags_ := tags_of raw in
      let title_ := basename file_path in
      let ftai_type_ := ftai_type_of raw in
      let parsed_json_ := parsed_json_of raw in
      (Returns (py "Imported " ++ title_ ++ py " with tags: " ++ tags_),
       insert_document now title_ ftai_type_ raw parsed_json_ tags_ db)
  end.

(** The operations as steps on the database. The two reads only run a
    SELECT: they take the database and hand back a result, no database. *)
Inductive operation :=
| Ingest (fs : filesystem) (now : Z) (file_path : text)
| Retrieve (tags_ : option (list text)) (limit : Z)
| Assemble (tags_ : option (list text)) (limit : Z).

Definition run (op : operation) (db : database) : database :=
  match op with
  | Ingest fs now file_path => snd (add_ftai_file fs now file_path db)
  | Retrieve _ _ => db
  | Assemble _ _ => db
  end.

Definition run_all (ops : list operation) (db : database) : database :=
  fold_left (fun d op => run op d) ops db.

(** The first script as a whole: its operations on the file
    folk_mind.db. [add_ftai_file] looks at the path and reads the source
    before it opens the database; the INSERT, and the SELECT of
    [get_context], need the table. *)
Definition add_ftai_file_in (fs : filesystem) (now : Z) (file_path : text)
    (f : FolkMind.file) : sqlite_call text * FolkMind.file :=
  match fs file_path with
  | None => (Completed (Returns (py "File not found: " ++ file_path)), f)
  | Some Unreadable => (Completed (Raises OSError), f)
  | Some (Readable _) =>
      match FolkMind.documents_table f with
      | None => (NoSuchTable, f)
      | Some db =>
          (Completed (fst (add_ftai_file fs now file_path db)),
           FolkMind.with_documents (snd (add_ftai_file fs now file_path db)) f)
      end
  end.

Inductive file_operation :=
| InitDb
| Call (op : operation).

Definition run_in (o : file_operation) (f : FolkMind.file) : FolkMind.file :=
  match o with
  | InitDb => FolkMind.init_db f
  | Call (Ingest fs now file_path) => snd (add_ftai_file_in fs now file_path f)
  | Call (Retrieve _ _) => f
  | Call (Assemble _ _) => f
  end.

Definition run_all_in (os : list file_operation) (f : FolkMind.file) : FolkMind.file :=
  fold_left (fun g o => run_in o g) os f.

(** ** What the specification says of tag extraction

    The ordered sequence of word-character runs that follow a marker,
    in order of appearance and without deduplication: at every position
    that holds the marker character with a word character after it, the
    longest run of word characters that starts after the marker. *)

Definition run_after_marker (c : char) (rest : text) : list text :=
  if char_eqb c AT then
    match take_while is_word rest with
    | [] => []
    | w => [w]
    end
  else [].

Fixpoint tag_runs (s : text) : list text :=
  match s with
  | [] => []
  | c :: rest => run_after_marker c rest ++ tag_runs rest
  end.

(** ** Facts about text *)

Lemma char_eqb_eq (a b : char) : char_eqb a b = true <-> a = b.
Proof. unfold char_eqb. apply N.eqb_eq. Qed.

Lemma char_eqb_neq (a b : char) : char_eqb a b = false <-> a <> b.
Proof. unfold char_eqb. apply N.eqb_neq. Qed.

Lemma take_while_Forall (p : char -> bool) (s : text) :
Forall (fun c => p c = true) (take_while p s).
Proof.
induction s as [|x s IH]; simpl; [constructor|].
destruct (p x) eqn:E; [constructor; assumption|constructor].
Qed.

Lemma firstn_take_while (p : char -> bool) (s : text) :
firstn (length (take_while p s)) s = take_while p s.
Proof.
induction s as [|x s IH]; simpl; [reflexivity|].
destruct (p x); simpl; [now rewrite IH|reflexivity].
Qed.

Lemma str_split_no_sep (c : char) (s : text) :
~ In c s -> str_split c s = [s].
Proof.
induction s as [|x s IH]; simpl; intros H; [reflexivity|].
destruct (char_eqb x c) eqn:E.
- apply char_eqb_eq in E. exfalso. apply H. now left.
- rewrite IH by (intros Hin; apply H; now right). reflexivity.
Qed.

Lemma str_split_app_sep (c : char) (a s : text) :
~ In c a -> str_split c (a ++ c :: s) = a :: str_split c s.
Proof.
induction a as [|x a IH]; simpl; intros H.
- now rewrite (proj2 (char_eqb_eq c c) eq_refl).
- destruct (char_eqb x c) eqn:E.
  + apply char_eqb_eq in E. exfalso. apply H. now left.
  + rewrite IH by (intros Hin; apply H; now right). reflexivity.
Qed.

Lemma str_split_join (c : char) (parts : list text) :
parts <> [] -> Forall (fun p => ~ In c p) parts ->
str_split c (str_join [c] parts) = parts.
Proof.
induction parts as [|p rest IH]; intros Hne Hall; [congruence|].
inversion Hall as [|? ? Hp Hrest]; subst.
destruct rest as [|q rest'].
- simpl. now apply str_split_no_sep.
- change (str_join [c] (p :: q :: rest')) with (p ++ c :: str_join [c] (q :: rest')).
  rewrite str_split_app_sep by assumption.
  f_equal. apply IH; [discriminate|assumption].
Qed.

Lemma py_String (a : ascii) (s : string) : py (String a s) = N_of_ascii a :: py s.
Proof. reflexivity. Qed.

Lemma digits_value_uint (d : Decimal.uint) (acc : nat) :
  digits_value acc (py (NilEmpty.string_of_uint d)) = Some (Nat.of_uint_acc d acc).
Proof.
  revert acc.
  induction d as [|d IH|d IH|d IH|d IH|d IH|d IH|d IH|d IH|d IH|d IH]; intros acc;
    [reflexivity|..];
    cbn [NilEmpty.string_of_uint Nat.of_uint_acc]; rewrite py_String;
    cbn [digits_value]; vm_compute in_range; rewrite IH;
    do 2 f_equal; rewrite Nat.tail_mul_spec; vm_compute N.to_nat; lia.
Qed.

(** [decimal] writes a number that reads back as itself. *)
Lemma number_of_decimal (n : nat) : number_of (decimal n) = Some n.
Proof.
  unfold decimal.
  pose proof (DecimalNat.Unsigned.of_to n) as E. unfold Nat.of_uint in E.
  destruct (Nat.to_uint n) as [|d|d|d|d|d|d|d|d|d|d] eqn:U;
    try (cbn [NilEmpty.string_of_uint]; rewrite py_String; unfold number_of;
         rewrite <- py_String;
         match goal with
         | |- digits_value 0 (py (String ?a (NilEmpty.string_of_uint ?d))) = _ =>
             first
               [ change (String a (NilEmpty.string_of_uint d))
                   with (NilEmpty.string_of_uint (Decimal.D0 d))
               | change (String a (NilEmpty.string_of_uint d))
                   with (NilEmpty.string_of_uint (Decimal.D1 d))
               | change (String a (NilEmpty.string_of_uint d))
                   with (NilEmpty.string_of_uint (Decimal.D2 d))
               | change (String a (NilEmpty.string_of_uint d))
                   with (NilEmpty.string_of_uint (Decimal.D3 d))
               | change (String a (NilEmpty.string_of_uint d))
                   with (NilEmpty.string_of_uint (Decimal.D4 d))
               | change (String a (NilEmpty.string_of_uint d))
                   with (NilEmpty.string_of_uint (Decimal.D5 d))
               | change (String a (NilEmpty.string_of_uint d))
                   with (NilEmpty.string_of_uint (Decimal.D6 d))
               | change (String a (NilEmpty.string_of_uint d))
                   with (NilEmpty.string_of_uint (Decimal.D7 d))
               | change (String a (NilEmpty.string_of_uint d))
                   with (NilEmpty.string_of_uint (Decimal.D8 d))
               | change (String a (NilEmpty.string_of_uint d))
                   with (NilEmpty.string_of_uint (Decimal.D9 d)) ]
         end;
         rewrite digits_value_uint; now rewrite E).
  simpl in E. subst n. discriminate U.
Qed.

(** ** Facts about the regular expression *)




Lemma is_word_not_at (c : char) : is_word c = true -> char_eqb c AT = false.
Proof.
  intros H. apply char_eqb_neq. intros ->. discriminate H.
Qed.

Lemma is_word_not_comma (c : char) : is_word c = true -> c <> COMMA.
Proof. intros H ->. discriminate H. Qed.

(** Stepping over characters of a match skips no marker: they are word
    characters, and "@" is not one. *)
Lemma findall_from_tag_runs (s : text) (skip : nat) :
  Forall (fun c => is_word c = true) (firstn skip s) ->
  findall_from skip s = tag_runs s.
Proof.
  revert skip. induction s as [|c rest IH]; intros skip Hskip.
  - destruct skip; reflexivity.
  - destruct skip as [|k].
    + cbn [findall_from tag_runs]. unfold run_after_marker.
      destruct (char_eqb c AT).
      * destruct (take_while is_word rest) as [|x w] eqn:W.
        -- apply IH. constructor.
        -- cbn [app]. f_equal. rewrite <- W. apply IH.
           rewrite firstn_take_while. apply take_while_Forall.
      * apply IH. constructor.
    + simpl in Hskip. inversion Hskip as [|? ? Hc Hk]; subst.
      simpl. unfold run_after_marker.
      rewrite (is_word_not_at _ Hc). simpl. now apply IH.
Qed.

Lemma findall_tag_runs (s : text) : findall s = tag_runs s.
Proof. apply findall_from_tag_runs. constructor. Qed.

Lemma tag_runs_words (s : text) :
  Forall (fun t => t <> [] /\ Forall (fun c => is_word c = true) t) (tag_runs s).
Proof.
  induction s as [|c rest IH]; simpl; [constructor|].
  apply Forall_app. split; [|assumption].
  unfold run_after_marker. destruct (char_eqb c AT); [|constructor].
  destruct (take_while is_word rest) as [|x w] eqn:W; [constructor|].
  constructor; [|constructor]. split; [discriminate|].
  rewrite <- W. apply take_while_Forall.
Qed.

Lemma findall_no_comma (s : text) :
  Forall (fun t => ~ In COMMA t) (findall s).
Proof.
  rewrite findall_tag_runs.
  eapply Forall_impl; [|apply tag_runs_words].
  intros t [_ Hw] Hin. rewrite Forall_forall in Hw.
  apply (is_word_not_comma COMMA (Hw _ Hin)). reflexivity.
Qed.

(** [re.search] finds the first of the matches of [re.findall]. *)
Lemma search_findall (s : text) : search s = hd_error (findall s).
Proof.
  unfold findall.
  induction s as [|c rest IH]; simpl; [reflexivity|].
  destruct (char_eqb c AT); [|assumption].
  destruct (take_while is_word rest); [assumption|reflexivity].
Qed.

(** ** Ingestion *)

Lemma add_ftai_file_readable fs now file_path raw db :
  fs file_path = Some (Readable raw) ->
  add_ftai_file fs now file_path db =
    (Returns (py "Imported " ++ basename file_path ++ py " with tags: " ++ tags_of raw),
     insert_document now (basename file_path) (ftai_type_of raw) raw
       (parsed_json_of raw) (tags_of raw) db).
Proof. intros H. unfold add_ftai_file. now rewrite H. Qed.

Lemma ftai_type_of_findall raw :
  ftai_type_of raw =
    match findall raw with
    | [] => py "@unknown"
    | t :: _ => AT :: t
    end.
Proof.
  unfold ftai_type_of. rewrite search_findall.
  now destruct (findall raw).
Qed.

Lemma next_rowid_above_sequence db : (sqlite_sequence db < next_rowid db)%Z.
Proof. unfold next_rowid. lia. Qed.

(** C2: the tags that ingestion extracts are the word-character runs
    after the markers, one per marker position, in the order of the text
    and with repetitions kept; the stored tag string is their
    comma-join. For "@lore Serena discovers the bloom" they are
    ["lore"], and a marker that occurs twice is listed twice. *)
Theorem extracted_tags_are_marker_runs (raw : text) :
  findall raw = tag_runs raw
  /\ tags_of raw = str_join [COMMA] (tag_runs raw)
  /\ findall (py "@lore Serena discovers the bloom") = [py "lore"]
  /\ findall (py "@lore one @saga two @lore") = [py "lore"; py "saga"; py "lore"].
Proof.
  split; [apply findall_tag_runs|].
  split; [unfold tags_of; now rewrite findall_tag_runs|].
  split; reflexivity.
Qed.

(** C3 (amended): the stored type marker is "@" followed by the first
    extracted tag when there is one and "@unknown" when there is none;
    so it is "@unknown" exactly when no marker was found or the first
    tag is itself the word "unknown". *)
Theorem primary_tag_of_first_marker fs now file_path raw db :
  fs file_path = Some (Readable raw) ->
  exists d,
    documents (snd (add_ftai_file fs now file_path db)) = documents db ++ [d]
    /\ ftai_type d = match findall raw with
                     | [] => py "@unknown"
                     | t :: _ => AT :: t
                     end
    /\ (ftai_type d = py "@unknown" <->
        findall raw = [] \/ hd_error (findall raw) = Some (py "unknown")).
Proof.
  intros H. rewrite (add_ftai_file_readable fs now file_path raw db H).
  eexists. split; [reflexivity|]. cbn [ftai_type].
  rewrite ftai_type_of_findall. split; [reflexivity|].
  destruct (findall raw) as [|t ts]; cbn [hd_error].
  - split; [now left|reflexivity].
  - split.
    + intros E. right. now injection E as ->.
    + intros [E|E]; [discriminate|]. now injection E as ->.
Qed.

(** C4: a source without any marker is stored with an empty tag string,
    whose split on commas has one element, the empty text, so that the
    stored metadata reads, after the length of the text,
    "tag_count": 1; its type marker is "@unknown". *)
Theorem no_marker_tag_count fs now file_path raw db :
  fs file_path = Some (Readable raw) ->
  findall raw = [] ->
  exists d length_digits,
    documents (snd (add_ftai_file fs now file_path db)) = documents db ++ [d]
    /\ tags d = []
    /\ str_split COMMA (tags d) = [[]]
    /\ parsed_json d
       = py "{" ++ [DQUOTE] ++ py "length" ++ [DQUOTE] ++ py ": " ++ length_digits
         ++ py ", " ++ [DQUOTE] ++ py "tag_count" ++ [DQUOTE] ++ py ": 1}"
    /\ number_of length_digits = Some (length raw)
    /\ ftai_type d = py "@unknown".
Proof.
  intros H Hnone. rewrite (add_ftai_file_readable fs now file_path raw db H).
  eexists. exists (decimal (length raw)).
  split; [reflexivity|]. cbn [tags parsed_json ftai_type snd].
  unfold parsed_json_of, tag_count_of.
  rewrite ftai_type_of_findall. unfold tags_of. rewrite Hnone.
  split; [reflexivity|]. split; [reflexivity|]. split; [reflexivity|].
  split; [apply number_of_decimal|reflexivity].
Qed.

(** C10: every extracted tag is made of word characters and holds no
    comma; when at least one marker was found, splitting the stored tag
    string on commas gives back the extracted tags, and the stored
    metadata reads, after the length of the text, "tag_count": followed
    by the number of extracted tags in decimal digits. *)
Theorem tag_storage_round_trip fs now file_path raw db :
  fs file_path = Some (Readable raw) ->
  findall raw <> [] ->
  Forall (fun t => Forall (fun c => is_word c = true) t /\ ~ In COMMA t) (findall raw)
  /\ exists d length_digits count_digits,
    documents (snd (add_ftai_file fs now file_path db)) = documents db ++ [d]
    /\ tags d = str_join [COMMA] (findall raw)
    /\ str_split COMMA (tags d) = findall raw
    /\ parsed_json d
       = py "{" ++ [DQUOTE] ++ py "length" ++ [DQUOTE] ++ py ": " ++ length_digits
         ++ py ", " ++ [DQUOTE] ++ py "tag_count" ++ [DQUOTE] ++ py ": "
         ++ count_digits ++ py "}"
    /\ number_of length_digits = Some (length raw)
    /\ number_of count_digits = Some (length (findall raw)).
Proof.
  intros H Hsome. split.
  - apply Forall_forall. intros t Ht. split.
    + pose proof (tag_runs_words raw) as W. rewrite <- findall_tag_runs in W.
      rewrite Forall_forall in W. now apply W.
    + pose proof (findall_no_comma raw) as W.
      rewrite Forall_forall in W. now apply W.
  - rewrite (add_ftai_file_readable fs now file_path raw db H).
    eexists. exists (decimal (length raw)), (decimal (length (findall raw))).
    split; [reflexivity|]. cbn [tags parsed_json snd].
    assert (R : str_split COMMA (tags_of raw) = findall raw).
    { unfold tags_of. apply str_split_join; [assumption|apply findall_no_comma]. }
    split; [reflexivity|]. split; [exact R|].
    split; [unfold parsed_json_of, tag_count_of; now rewrite R|].
    split; apply number_of_decimal.
Qed.

(** ** The store only grows *)

Lemma run_appends op db :
  exists new, documents (run op db) = documents db ++ new /\ length new <= 1.
Proof.
  destruct op as [fs now file_path| |]; cbn [run];
    try (exists []; rewrite app_nil_r; split; [reflexivity|simpl; lia]).
  unfold add_ftai_file. destruct (fs file_path) as [[raw|]|]; cbn [snd].
  - eexists. split; [reflexivity|simpl; lia].
  - exists []. rewrite app_nil_r. split; [reflexivity|simpl; lia].
  - exists []. rewrite app_nil_r. split; [reflexivity|simpl; lia].
Qed.

Lemma run_all_appends ops db :
  exists new, documents (run_all ops db) = documents db ++ new.
Proof.
  unfold run_all. revert db. induction ops as [|op ops IH]; intros db.
  - exists []. now rewrite app_nil_r.
  - cbn [fold_left]. destruct (IH (run op db)) as [later Hlater].
    destruct (run_appends op db) as [new [Hnew _]].
    exists (new ++ later). rewrite Hlater, Hnew. now rewrite app_assoc.
Qed.

(** C5: whatever operations run, the records stored before are still
    there, unchanged and in place, followed by the new ones. An ingest
    of a readable source appends one record; its fields other than the
    id are the same whatever the store holds; ingesting the same source
    twice appends two records with different ids, so that the store
    grows by exactly 2. *)
Theorem store_is_append_only ops fs now1 now2 file_path raw db :
  fs file_path = Some (Readable raw) ->
  (exists new, documents (run_all ops db) = documents db ++ new)
  /\ exists d1 d2,
       documents (run (Ingest fs now1 file_path) db) = documents db ++ [d1]
    /\ documents (run_all [Ingest fs now1 file_path; Ingest fs now2 file_path] db)
         = documents db ++ [d1; d2]
    /\ length (documents (run_all [Ingest fs now1 file_path; Ingest fs now2 file_path] db))
         = length (documents db) + 2
    /\ id d1 <> id d2
    /\ content d1 = raw /\ content d2 = raw
    /\ forall db', exists d',
         documents (run (Ingest fs now1 file_path) db') = documents db' ++ [d']
         /\ (title d', ftai_type d', content d', parsed_json d', tags d', timestamp d')
            = (title d1, ftai_type d1, content d1, parsed_json d1, tags d1, timestamp d1).
Proof.
  intros H. split; [apply run_all_appends|].
  unfold run_all. cbn [fold_left run].
  rewrite (add_ftai_file_readable fs now1 file_path raw db H). cbn [snd].
  rewrite (add_ftai_file_readable fs now2 file_path raw _ H). cbn [snd].
  set (db1 := insert_document now1 (basename file_path) (ftai_type_of raw) raw
                (parsed_json_of raw) (tags_of raw) db).
  exists {| id := next_rowid db; title := basename file_path;
            ftai_type := ftai_type_of raw; content := raw;
            parsed_json := parsed_json_of raw; tags := tags_of raw;
            timestamp := now1 |}.
  exists {| id := next_rowid db1; title := basename file_path;
            ftai_type := ftai_type_of raw; content := raw;
            parsed_json := parsed_json_of raw; tags := tags_of raw;
            timestamp := now2 |}.
  assert (E2 : documents (insert_document now2 (basename file_path)
                 (ftai_type_of raw) raw (parsed_json_of raw) (tags_of raw) db1)
               = documents db ++
                 [{| id := next_rowid db; title := basename file_path;
                     ftai_type := ftai_type_of raw; content := raw;
                     parsed_json := parsed_json_of raw; tags := tags_of raw;
                     timestamp := now1 |};
                  {| id := next_rowid db1; title := basename file_path;
                     ftai_type := ftai_type_of raw; content := raw;
                     parsed_json := parsed_json_of raw; tags := tags_of raw;
                     timestamp := now2 |}]).
  { unfold insert_document at 1. subst db1. cbn [insert_document documents].
    now rewrite <- app_assoc. }
  split; [reflexivity|].
  split; [exact E2|].
  split; [rewrite E2, length_app; simpl; lia|].
  cbn [id content title ftai_type parsed_json tags timestamp].
  split.
  - pose proof (next_rowid_above_sequence db1) as Hlt.
    subst db1. cbn [insert_document sqlite_sequence] in Hlt.
    cbn [insert_document]. lia.
  - split; [reflexivity|]. split; [reflexivity|].
    intros db'. rewrite (add_ftai_file_readable fs now1 file_path raw db' H).
    eexists. split; reflexivity.
Qed.

(** C6 (amended): for a path that does not exist the call returns, as an
    ordinary value, the text "File not found: " followed by the path;
    for every path that is not an existing readable source no record is
    created and the store stays as it was. *)
Theorem missing_source_reported fs now file_path db :
  (forall raw, fs file_path <> Some (Readable raw)) ->
  snd (add_ftai_file fs now file_path db) = db
  /\ (fs file_path = None ->
      fst (add_ftai_file fs now file_path db)
        = Returns (py "File not found: " ++ file_path)).
Proof.
  intros H. unfold add_ftai_file.
  destruct (fs file_path) as [[raw|]|].
  - now destruct (H raw).
  - split; [reflexivity|discriminate].
  - split; reflexivity.
Qed.

End Memory.

(** ** Facts about LIKE *)

Lemma like_percent (pattern s : text) :
  like (PERCENT :: pattern) s =
    like pattern s || match s with
                      | [] => false
                      | _ :: s' => like (PERCENT :: pattern) s'
                      end.
Proof. destruct s; reflexivity. Qed.

Lemma like_char (p : char) (pattern s : text) :
  char_eqb p PERCENT = false ->
  like (p :: pattern) s =
    match s with
    | [] => false
    | c :: s' =>
        (char_eqb p UNDERSCORE || char_eqb (ascii_upper p) (ascii_upper c))
        && like pattern s'
    end.
Proof. intros H. cbn [like]. rewrite H. reflexivity. Qed.

Lemma like_nil (s : text) : like [] s = true <-> s = [].
Proof. destruct s; simpl; split; congruence. Qed.

Lemma like_percent_iff (pattern s : text) :
  like (PERCENT :: pattern) s = true <->
  exists pre rest, s = pre ++ rest /\ like pattern rest = true.
Proof.
  induction s as [|c s IH]; rewrite like_percent.
  - rewrite orb_false_r. split.
    + intros H. now exists [], [].
    + intros (pre & rest & E & H).
      symmetry in E. apply app_eq_nil in E. destruct E as [_ ->]. exact H.
  - rewrite orb_true_iff, IH. split.
    + intros [H|(pre & rest & -> & H)].
      * now exists [], (c :: s).
      * now exists (c :: pre), rest.
    + intros (pre & rest & E & H). destruct pre as [|x pre].
      * left. simpl in E. now subst rest.
      * right. injection E as -> ->. now exists pre, rest.
Qed.

Lemma like_app (p q s : text) :
  like (p ++ q) s = true <->
  exists s1 s2, s = s1 ++ s2 /\ like p s1 = true /\ like q s2 = true.
Proof.
  revert s. induction p as [|c p IH]; intros s.
  - simpl app. split.
    + intros H. now exists [], s.
    + intros (s1 & s2 & -> & H1 & H2). apply like_nil in H1. now subst s1.
  - destruct (char_eqb c PERCENT) eqn:E.
    + apply char_eqb_eq in E. subst c. cbn [app]. rewrite like_percent_iff. split.
      * intros (pre & rest & -> & H). apply IH in H.
        destruct H as (s1 & s2 & -> & H1 & H2).
        exists (pre ++ s1), s2. rewrite app_assoc. repeat split; [|assumption].
        apply like_percent_iff. now exists pre, s1.
      * intros (s1 & s2 & -> & H1 & H2). apply like_percent_iff in H1.
        destruct H1 as (pre & rest & -> & H1).
        exists pre, (rest ++ s2). rewrite app_assoc. split; [reflexivity|].
        apply IH. now exists rest, s2.
    + cbn [app]. rewrite (like_char c (p ++ q) s E). split.
      * destruct s as [|d s]; [discriminate|].
        rewrite andb_true_iff. intros [Hc H]. apply IH in H.
        destruct H as (s1 & s2 & -> & H1 & H2).
        exists (d :: s1), s2. repeat split; [|assumption].
        rewrite (like_char c p (d :: s1) E). now rewrite Hc.
      * intros (s1 & s2 & -> & H1 & H2).
        rewrite (like_char c p s1 E) in H1.
        destruct s1 as [|d s1]; [discriminate|].
        apply andb_true_iff in H1. destruct H1 as [Hc H1].
        cbn [app]. rewrite Hc. cbn [andb]. apply IH. now exists s1, s2.
Qed.

Lemma like_any (s : text) : like [PERCENT] s = true.
Proof. apply like_percent_iff. exists s, []. now rewrite app_nil_r. Qed.

(** [tags LIKE '%tag%']: some piece of the stored text matches the tag. *)
Lemma like_tag_pattern (tag s : text) :
  like (PERCENT :: tag ++ [PERCENT]) s = true <->
  exists pre mid post, s = pre ++ mid ++ post /\ like tag mid = true.
Proof.
  rewrite like_percent_iff. split.
  - intros (pre & rest & -> & H). apply like_app in H.
    destruct H as (mid & post & -> & H & _). now exists pre, mid, post.
  - intros (pre & mid & post & -> & H). exists pre, (mid ++ post).
    split; [reflexivity|]. apply like_app. exists mid, post.
    repeat split; [assumption|apply like_any].
Qed.

(** Without wildcards a tag matches the texts equal to it up to the case
    of ASCII letters. *)
Lemma like_wildcard_free (tag s : text) :
  wildcard_free tag = true ->
  (like tag s = true <-> upper s = upper tag).
Proof.
  revert s. induction tag as [|c tag IH]; intros s Hfree.
  - rewrite like_nil. destruct s; simpl; split; congruence.
  - cbn [wildcard_free forallb] in Hfree.
    apply andb_true_iff in Hfree. destruct Hfree as [Hc Hfree].
    apply negb_true_iff, orb_false_iff in Hc. destruct Hc as [Hp Hu].
    rewrite (like_char c tag s Hp). destruct s as [|d s].
    + simpl. split; discriminate.
    + rewrite Hu. cbn [orb upper map]. rewrite andb_true_iff, char_eqb_eq.
      fold (upper s) (upper tag). rewrite (IH s Hfree). split.
      * intros [-> ->]. reflexivity.
      * intros E. injection E as -> ->. now split.
Qed.

Lemma tag_query_iff (ts : list text) (d : document) :
  tag_query ts d = true <->
  exists tag, In tag ts /\
    exists pre mid post, tags d = pre ++ mid ++ post /\ like tag mid = true.
Proof.
  unfold tag_query. rewrite existsb_exists. split.
  - intros (tag & Hin & H). exists tag. split; [assumption|].
    now apply like_tag_pattern.
  - intros (tag & Hin & H). exists tag. split; [assumption|].
    now apply like_tag_pattern.
Qed.

(** ** Facts about substrings *)

Lemma starts_with_iff (sub s : text) :
  starts_with sub s = true <-> exists post, s = sub ++ post.
Proof.
  revert s. induction sub as [|x sub IH]; intros s.
  - simpl. split; [intros _; now exists s|reflexivity].
  - destruct s as [|y s]; simpl.
    + split; [discriminate|intros [post E]; discriminate].
    + rewrite andb_true_iff, char_eqb_eq, IH. split.
      * intros [-> [post ->]]. now exists post.
      * intros [post E]. injection E as -> ->. split; [reflexivity|now exists post].
Qed.

Lemma containsb_contains (sub s : text) :
  containsb sub s = true <-> contains sub s.
Proof.
  unfold contains. induction s as [|y s IH]; cbn [containsb];
    rewrite orb_true_iff, starts_with_iff.
  - split.
    + intros [[post E]|H]; [|discriminate]. now exists [], post.
    + intros (pre & post & E). left. destruct pre; [|discriminate]. now exists post.
  - rewrite IH. split.
    + intros [[post E]|(pre & post & ->)].
      * now exists [], post.
      * now exists (y :: pre), post.
    + intros (pre & post & E). destruct pre as [|x pre].
      * left. now exists post.
      * right. injection E as -> ->. now exists pre, post.
Qed.

(** ** Facts about ORDER BY and LIMIT *)

Lemma insert_desc_perm (d : document) (rows : list document) :
  Permutation (d :: rows) (insert_desc d rows).
Proof.
  induction rows as [|e rows IH]; simpl; [apply Permutation_refl|].
  destruct (timestamp e <=? timestamp d)%Z; [apply Permutation_refl|].
  eapply perm_trans; [apply perm_swap|]. now apply perm_skip.
Qed.

Lemma order_by_perm (rows : list document) :
  Permutation (order_by_timestamp_desc rows) rows.
Proof.
  induction rows as [|d rows IH]; simpl; [constructor|].
  eapply perm_trans; [apply Permutation_sym, insert_desc_perm|].
  now apply perm_skip.
Qed.

Lemma insert_desc_sorted (d : document) (rows : list document) :
  Sorted newer_or_equal rows -> Sorted newer_or_equal (insert_desc d rows).
Proof.
  induction rows as [|e rows IH]; intros S; simpl.
  - repeat constructor.
  - destruct (timestamp e <=? timestamp d)%Z eqn:C.
    + constructor; [assumption|]. constructor. unfold newer_or_equal. lia.
    + inversion S as [|? ? S' Hd]; subst. constructor; [now apply IH|].
      destruct rows as [|f rows]; simpl.
      * constructor. unfold newer_or_equal. lia.
      * destruct (timestamp f <=? timestamp d)%Z.
        -- constructor. unfold newer_or_equal. lia.
        -- constructor. now inversion Hd.
Qed.

Lemma order_by_sorted (rows : list document) :
  newest_first (order_by_timestamp_desc rows).
Proof.
  apply Sorted_StronglySorted.
  - intros a b c. unfold newer_or_equal. lia.
  - induction rows as [|d rows IH]; simpl; [constructor|].
    now apply insert_desc_sorted.
Qed.

Lemma sql_limit_nonneg (n : Z) (rows : list document) :
  (0 <= n)%Z -> sql_limit n rows = firstn (Z.to_nat n) rows.
Proof.
  intros H. unfold sql_limit. destruct (n <? 0)%Z eqn:C; [lia|reflexivity].
Qed.

Lemma sql_limit_negative (n : Z) (rows : list document) :
  (n < 0)%Z -> sql_limit n rows = rows.
Proof.
  intros H. unfold sql_limit. destruct (n <? 0)%Z eqn:C; [reflexivity|lia].
Qed.

Lemma fits_int64_iff (n : Z) :
  fits_int64 n = true <-> (- 2 ^ 63 <= n < 2 ^ 63)%Z.
Proof. unfold fits_int64. rewrite andb_true_iff. lia. Qed.

(** ** Retrieval *)

Lemma plain_tag_facts (tag : text) :
  plain_tag tag = true ->
  forallb is_code_point tag = true
  /\ existsb is_surrogate tag = false
  /\ existsb (char_eqb NUL) tag = false
  /\ quote_free tag = true
  /\ fits_like tag = true.
Proof.
  unfold plain_tag, quote_free. rewrite andb_true_iff. intros [Hc Hf].
  assert (G : forallb is_code_point tag = true
              /\ existsb is_surrogate tag = false
              /\ existsb (char_eqb NUL) tag = false
              /\ existsb (char_eqb QUOTE) tag = false).
  { clear Hf. induction tag as [|c tag IH]; [repeat split|].
    cbn [forallb] in Hc. apply andb_true_iff in Hc. destruct Hc as [Hc Ht].
    destruct (IH Ht) as (I1 & I2 & I3 & I4).
    unfold plain_char in Hc. rewrite !andb_true_iff, !negb_true_iff in Hc.
    destruct Hc as [[[C1 C2] C3] C4].
    cbn [forallb existsb]. rewrite C1, C2, C3, C4, I1, I2, I3, I4. repeat split. }
  destruct G as (G1 & G2 & G3 & G4). rewrite G4. repeat split; assumption.
Qed.

Lemma plain_tags_facts (ts : list text) :
  forallb plain_tag ts = true ->
  forallb (forallb is_code_point) ts = true
  /\ existsb (existsb is_surrogate) ts = false
  /\ existsb (existsb (char_eqb NUL)) ts = false
  /\ forallb quote_free ts = true
  /\ forallb fits_like ts = true.
Proof.
  induction ts as [|t ts IH]; [repeat split|].
  cbn [forallb existsb]. rewrite andb_true_iff. intros [Ht Hts].
  destruct (plain_tag_facts t Ht) as (T1 & T2 & T3 & T4 & T5).
  destruct (IH Hts) as (I1 & I2 & I3 & I4 & I5).
  rewrite T1, T2, T3, T4, T5, I1, I2, I3, I4, I5. repeat split.
Qed.

Lemma prepare_tags_plain (ts : list text) :
  plain_tags ts = true ->
  prepare_tags ts = Some (Returns (tag_query ts)) /\ forallb fits_like ts = true.
Proof.
  unfold plain_tags. rewrite andb_true_iff. intros [Hlen Hall].
  destruct (plain_tags_facts ts Hall) as (F1 & F2 & F3 & F4 & F5).
  unfold prepare_tags. rewrite F1, F2, F3, F4. cbn [negb].
  destruct (1000 <=? Z.of_nat (length ts))%Z eqn:C; [lia|]. now split.
Qed.

(** A plain request is answered from the rows that the WHERE clause
    keeps. *)
Lemma get_context_plain (db : database) (tags_ : option (list text)) (limit : Z) :
  plain_request tags_ = true ->
  get_context db tags_ limit = Some (select_rows (rows_for db tags_) limit).
Proof.
  intros H. unfold get_context, rows_for.
  destruct tags_ as [[|t ts]|]; try reflexivity.
  destruct (prepare_tags_plain (t :: ts) H) as [-> ->]. reflexivity.
Qed.

Lemma select_rows_nonneg (rows : list document) (limit : Z) :
  (0 <= limit < 2 ^ 63)%Z ->
  select_rows rows limit
  = Returns (map (fun d => (title d, content d))
               (firstn (Z.to_nat limit) (order_by_timestamp_desc rows))).
Proof.
  intros H. unfold select_rows.
  rewrite (proj2 (fits_int64_iff limit)) by lia.
  now rewrite sql_limit_nonneg by lia.
Qed.

Lemma select_rows_negative (rows : list document) (limit : Z) :
  (- 2 ^ 63 <= limit < 0)%Z ->
  select_rows rows limit
  = Returns (map (fun d => (title d, content d)) (order_by_timestamp_desc rows)).
Proof.
  intros H. unfold select_rows.
  rewrite (proj2 (fits_int64_iff limit)) by lia.
  now rewrite sql_limit_negative by lia.
Qed.

Lemma select_rows_overflow (rows : list document) (limit : Z) :
  (limit < - 2 ^ 63 \/ 2 ^ 63 <= limit)%Z ->
  select_rows rows limit = Raises OverflowError.
Proof.
  intros H. unfold select_rows.
  destruct (fits_int64 limit) eqn:F; [|reflexivity].
  apply fits_int64_iff in F. lia.
Qed.

(** C1 (amended): for a non-empty list of plain tags (fewer than 1000
    tags, each without quote, NUL and surrogate and with a pattern of at
    most 50000 bytes) and a limit that fits 64 bits, the call returns
    the title and content of the stored documents that the WHERE clause
    selects, newest first: all of them for a negative limit, the first
    [limit] of them otherwise. The clause selects a document when some
    piece of its stored tag string matches one of the tags under LIKE;
    for a tag without "%" and "_" that is when the piece equals the tag
    up to the case of ASCII letters. *)
Theorem tag_filter_retrieval (db : database) (ts : list text) (limit : Z) :
  ts <> [] ->
  plain_tags ts = true ->
  (- 2 ^ 63 <= limit < 2 ^ 63)%Z ->
  exists selected,
    Permutation selected (filter (tag_query ts) (documents db))
    /\ newest_first selected
    /\ (forall d, In d selected <->
          In d (documents db) /\
          exists tag, In tag ts /\
            exists pre mid post, tags d = pre ++ mid ++ post /\ like tag mid = true)
    /\ (forall tag mid, wildcard_free tag = true ->
          (like tag mid = true <-> upper mid = upper tag))
    /\ (0 <= limit ->
          get_context db (Some ts) limit
            = Some (Returns (map (fun d => (title d, content d))
                               (firstn (Z.to_nat limit) selected)))
          /\ Z.of_nat (length (firstn (Z.to_nat limit) selected)) <= limit)%Z
    /\ (limit < 0 ->
          get_context db (Some ts) limit
            = Some (Returns (map (fun d => (title d, content d)) selected)))%Z.
Proof.
  intros Hne Hplain Hfit.
  exists (order_by_timestamp_desc (filter (tag_query ts) (documents db))).
  split; [apply order_by_perm|].
  split; [apply order_by_sorted|].
  split.
  { intros d. rewrite <- tag_query_iff, <- filter_In. split.
    - apply Permutation_in, order_by_perm.
    - apply Permutation_in, Permutation_sym, order_by_perm. }
  split; [intros tag mid; apply like_wildcard_free|].
  assert (G : get_context db (Some ts) limit
              = Some (select_rows (filter (tag_query ts) (documents db)) limit)).
  { rewrite (get_context_plain db (Some ts) limit Hplain).
    destruct ts as [|t ts']; [congruence|reflexivity]. }
  split.
  - intros Hpos. rewrite G, select_rows_nonneg by lia.
    split; [reflexivity|]. rewrite length_firstn. lia.
  - intros Hneg. now rewrite G, select_rows_negative by lia.
Qed.

(** C8 (amended): without tags (none given, or an empty list) no filter
    applies. For a limit from 0 to 2^63 - 1 the call returns the title
    and content of the [limit] newest documents of the whole table,
    newest first; for a negative limit down to -2^63 it returns those of
    all documents; for any other limit it raises OverflowError. *)
Theorem recent_retrieval (db : database) (tags_ : option (list text)) (limit : Z) :
  tags_ = None \/ tags_ = Some [] ->
  exists ordered,
    Permutation ordered (documents db)
    /\ newest_first ordered
    /\ ((0 <= limit < 2 ^ 63)%Z ->
        get_context db tags_ limit
          = Some (Returns (map (fun d => (title d, content d))
                             (firstn (Z.to_nat limit) ordered)))
        /\ length (firstn (Z.to_nat limit) ordered)
           = Nat.min (Z.to_nat limit) (length (documents db)))
    /\ ((- 2 ^ 63 <= limit < 0)%Z ->
        get_context db tags_ limit
          = Some (Returns (map (fun d => (title d, content d)) ordered)))
    /\ ((limit < - 2 ^ 63 \/ 2 ^ 63 <= limit)%Z ->
        get_context db tags_ limit = Some (Raises OverflowError)).
Proof.
  intros Htags. exists (order_by_timestamp_desc (documents db)).
  assert (G : get_context db tags_ limit = Some (select_rows (documents db) limit))
    by (destruct Htags as [-> | ->]; reflexivity).
  split; [apply order_by_perm|].
  split; [apply order_by_sorted|].
  split; [|split].
  - intros Hl. rewrite G, select_rows_nonneg by assumption.
    split; [reflexivity|]. rewrite length_firstn.
    now rewrite (Permutation_length (order_by_perm (documents db))).
  - intros Hl. now rewrite G, select_rows_negative by assumption.
  - intros Hl. now rewrite G, select_rows_overflow by assumption.
Qed.

(** ** Prompt assembly *)

Lemma assemble_cons (e : text * text) (es : list (text * text)) :
  assemble (e :: es) = block e ++ concat (map (fun x => SEPARATOR ++ block x) es).
Proof.
  unfold assemble. revert e. induction es as [|e' es IH]; intros e.
  - simpl. now rewrite app_nil_r.
  - change (str_join SEPARATOR (map block (e :: e' :: es)))
      with (block e ++ SEPARATOR ++ str_join SEPARATOR (map block (e' :: es))).
    rewrite IH. simpl. now rewrite <- app_assoc.
Qed.

Lemma assemble_app (before : list (text * text)) (e : text * text)
    (after : list (text * text)) :
  assemble (before ++ e :: after) =
    concat (map (fun x => block x ++ SEPARATOR) before) ++ assemble (e :: after).
Proof.
  induction before as [|b before IH]; [reflexivity|].
  cbn [map concat]. rewrite <- !app_assoc, <- IH.
  destruct before as [|b' before']; reflexivity.
Qed.


(** C7 (amended): the assembled text of a non-empty sequence of entries has one
    block per entry, in the order of the entries: "# ", the title, a
    newline, the content as it is, a newline; between two blocks stands
    a newline, three dashes and a newline. Nothing is cut: the length of
    the text is the sum of the lengths of its blocks and separators. *)
Theorem assemble_blocks (before : list (text * text)) (title_ content_ : text)
    (after : list (text * text)) :
  assemble (before ++ (title_, content_) :: after) =
    concat (map (fun x => block x ++ SEPARATOR) before)
    ++ (py "# " ++ title_ ++ [NEWLINE] ++ content_ ++ [NEWLINE])
    ++ concat (map (fun x => SEPARATOR ++ block x) after)
  /\ SEPARATOR = [NEWLINE] ++ py "---" ++ [NEWLINE]
  /\ length (assemble (before ++ (title_, content_) :: after)) =
       list_sum (map (fun x => length (fst x) + length (snd x) + 4)
                   (before ++ (title_, content_) :: after))
       + 5 * (length before + length after)
  /\ assemble [(py "A", py "x"); (py "B", py "y")] =
       py "# A" ++ [NEWLINE] ++ py "x" ++ [NEWLINE] ++ [NEWLINE] ++ py "---"
       ++ [NEWLINE] ++ py "# B" ++ [NEWLINE] ++ py "y" ++ [NEWLINE].
Proof.
  assert (Lb : forall x, length (block x) = length (fst x) + length (snd x) + 4).
  { intros x. unfold block. rewrite !length_app. simpl. lia. }
  assert (Ls : forall a l, list_sum (a :: l) = a + list_sum l) by reflexivity.
  assert (La : forall l, length (concat (map (fun x => SEPARATOR ++ block x) l))
               = list_sum (map (fun x => length (fst x) + length (snd x) + 4) l)
                 + 5 * length l).
  { induction l as [|x l IH]; [reflexivity|].
    cbn [map concat length]. rewrite !length_app, IH, Lb, Ls.
    change (length SEPARATOR) with 5. unfold text, char in *. lia. }
  assert (Lp : forall l, length (concat (map (fun x => block x ++ SEPARATOR) l))
               = list_sum (map (fun x => length (fst x) + length (snd x) + 4) l)
                 + 5 * length l).
  { induction l as [|x l IH]; [reflexivity|].
    cbn [map concat length]. rewrite !length_app, IH, Lb, Ls.
    change (length SEPARATOR) with 5. unfold text, char in *. lia. }
  split; [rewrite assemble_app, assemble_cons; reflexivity|].
  split; [reflexivity|].
  split; [|reflexivity].
  rewrite assemble_app, assemble_cons, !length_app, Lp, La, Lb.
  rewrite map_app, list_sum_app. cbn [map]. rewrite Ls. cbn [fst snd].
  unfold text, char in *. lia.
Qed.

(** ** The operations on the sample data *)

Lemma sample_db_ingested :
  run_all ascii_only
    [Ingest sample_fs 100 (py "/notes/a.ftai");
     Ingest sample_fs 200 (py "/notes/x.ftai");
     Ingest sample_fs 300 (py "/notes/plain.ftai")] empty_db = sample_db.
Proof. vm_compute. reflexivity. Qed.

(** C1 fails as stated: the tag "a_b" selects x.ftai, whose tag string
    "axb,LORE" does not contain "a_b"; the tag "lore" selects it too,
    though the string does not contain "lore"; the limit -1 returns two
    documents; and the call raises for a tag with a quote, with NUL or
    with a surrogate, for 1000 tags and for a tag of 49999 letters. *)
Lemma substring_filter_counterexample :
  (In sample_row_x (documents sample_db)
   /\ tags sample_row_x = py "axb,LORE"
   /\ (title sample_row_x, content sample_row_x) = (py "x.ftai", py "@axb then @LORE")
   /\ get_context sample_db (Some [py "a_b"]) 5
      = Some (Returns [(py "x.ftai", py "@axb then @LORE")])
   /\ ~ contains (py "a_b") (py "axb,LORE"))
  /\ (get_context sample_db (Some [py "lore"]) 5
      = Some (Returns [(py "x.ftai", py "@axb then @LORE");
                       (py "a.ftai", py "@lore Serena discovers the bloom")])
      /\ ~ contains (py "lore") (py "axb,LORE"))
  /\ get_context sample_db (Some [py "lore"]) (-1)
     = Some (Returns [(py "x.ftai", py "@axb then @LORE");
                      (py "a.ftai", py "@lore Serena discovers the bloom")])
  /\ get_context sample_db (Some [py "it's"]) 5 = Some (Raises OperationalError)
  /\ get_context sample_db (Some [py "lo" ++ [NUL] ++ py "re"]) 5
     = Some (Raises ProgrammingError)
  /\ get_context sample_db (Some [py "lo" ++ [55296%N]]) 5
     = Some (Raises UnicodeEncodeError)
  /\ (length thousand_tags = 1000
      /\ get_context sample_db (Some thousand_tags) 5 = Some (Raises OperationalError))
  /\ (utf8_length long_tag = 49999%N
      /\ get_context sample_db (Some [long_tag]) 5 = Some (Raises OperationalError)).
Proof.
  split; [|split; [|split; [|split; [|split; [|split; [|split]]]]]].
  - split; [right; left; reflexivity|]. do 3 (split; [reflexivity|]).
    rewrite <- containsb_contains. vm_compute. discriminate.
  - split; [vm_compute; reflexivity|].
    rewrite <- containsb_contains. vm_compute. discriminate.
  - vm_compute. reflexivity.
  - vm_compute. reflexivity.
  - vm_compute. reflexivity.
  - vm_compute. reflexivity.
  - split; vm_compute; reflexivity.
  - split; vm_compute; reflexivity.
Qed.

Lemma tag_filter_retrieval_witness :
  [py "lore"] <> []
  /\ plain_tags [py "lore"] = true
  /\ (- 2 ^ 63 <= 5 < 2 ^ 63)%Z
  /\ exists selected,
       Permutation selected (filter (tag_query [py "lore"]) (documents sample_db))
    /\ newest_first selected
    /\ (forall d, In d selected <->
          In d (documents sample_db) /\
          exists tag, In tag [py "lore"] /\
            exists pre mid post, tags d = pre ++ mid ++ post /\ like tag mid = true)
    /\ (forall tag mid, wildcard_free tag = true ->
          (like tag mid = true <-> upper mid = upper tag))
    /\ (0 <= 5 ->
          get_context sample_db (Some [py "lore"]) 5
            = Some (Returns (map (fun d => (title d, content d))
                               (firstn (Z.to_nat 5) selected)))
          /\ Z.of_nat (length (firstn (Z.to_nat 5) selected)) <= 5)%Z
    /\ (5 < 0 ->
          get_context sample_db (Some [py "lore"]) 5
            = Some (Returns (map (fun d => (title d, content d)) selected)))%Z.
Proof.
  assert (H1 : [py "lore"] <> []) by discriminate.
  assert (H2 : plain_tags [py "lore"] = true) by reflexivity.
  assert (H3 : (- 2 ^ 63 <= 5 < 2 ^ 63)%Z) by lia.
  split; [exact H1|]. split; [exact H2|]. split; [exact H3|].
  exact (tag_filter_retrieval sample_db [py "lore"] 5 H1 H2 H3).
Defined.

(** C8 fails as stated: with the limit 2^63 the call raises instead of
    returning the three documents, and with the limit -1 it returns all
    three. *)
Lemma recent_retrieval_limit_counterexample :
  get_context sample_db None (2 ^ 63) = Some (Raises OverflowError)
  /\ get_context sample_db (Some []) (2 ^ 63) = Some (Raises OverflowError)
  /\ get_context sample_db None (-1)
     = Some (Returns [(py "plain.ftai", py "no markers here");
                      (py "x.ftai", py "@axb then @LORE");
                      (py "a.ftai", py "@lore Serena discovers the bloom")]).
Proof. repeat split; vm_compute; reflexivity. Qed.

Lemma recent_retrieval_witness :
  (Some (@nil text) = None \/ Some (@nil text) = Some [])
  /\ exists ordered,
       Permutation ordered (documents sample_db)
    /\ newest_first ordered
    /\ ((0 <= 2 < 2 ^ 63)%Z ->
        get_context sample_db (Some []) 2
          = Some (Returns (map (fun d => (title d, content d))
                             (firstn (Z.to_nat 2) ordered)))
        /\ length (firstn (Z.to_nat 2) ordered)
           = Nat.min (Z.to_nat 2) (length (documents sample_db)))
    /\ ((- 2 ^ 63 <= 2 < 0)%Z ->
        get_context sample_db (Some []) 2
          = Some (Returns (map (fun d => (title d, content d)) ordered)))
    /\ ((2 < - 2 ^ 63 \/ 2 ^ 63 <= 2)%Z ->
        get_context sample_db (Some []) 2 = Some (Raises OverflowError)).
Proof.
  assert (H1 : Some (@nil text) = None \/ Some (@nil text) = Some []) by (right; reflexivity).
  split; [exact H1|].
  exact (recent_retrieval sample_db (Some []) 2 H1).
Defined.



(** C7 fails as stated: in the text assembled from two entries the line
    after the three dashes is the next header, not a blank line, and the
    header has a space between the marker and the title; the text of a
    single entry ends with one newline, with no blank line after the
    content. *)
Lemma assemble_layout_counterexample :
  str_split NEWLINE (assemble [(py "A", py "x"); (py "B", py "y")])
  = [py "# A"; py "x"; []; py "---"; py "# B"; py "y"; []]
  /\ nth 4 (str_split NEWLINE (assemble [(py "A", py "x"); (py "B", py "y")])) []
     <> []
  /\ assemble [(py "A", py "x")] = py "# A" ++ [NEWLINE] ++ py "x" ++ [NEWLINE]
  /\ str_split NEWLINE (assemble [(py "A", py "x")]) = [py "# A"; py "x"; []].
Proof.
  split; [reflexivity|]. split; [vm_compute; discriminate|].
  split; reflexivity.
Qed.

(** C3 fails as stated: the source u.ftai has a marker, "@unknown", and
    its stored type marker is the sentinel all the same. *)
Lemma unknown_marker_counterexample :
  exists d,
    documents (snd (add_ftai_file ascii_only sample_fs 0 (py "/notes/u.ftai") empty_db)) = [d]
    /\ ftai_type d = py "@unknown"
    /\ findall ascii_only (content d) = [py "unknown"]
    /\ findall ascii_only (content d) <> [].
Proof.
  eexists. split; [reflexivity|]. split; [reflexivity|].
  split; [reflexivity|]. vm_compute. discriminate.
Qed.

Lemma primary_tag_of_first_marker_witness :
  sample_fs (py "/notes/a.ftai") = Some (Readable (py "@lore Serena discovers the bloom"))
  /\ exists d,
    documents (snd (add_ftai_file ascii_only sample_fs 100 (py "/notes/a.ftai") empty_db))
      = documents empty_db ++ [d]
    /\ ftai_type d = match findall ascii_only (py "@lore Serena discovers the bloom") with
                     | [] => py "@unknown"
                     | t :: _ => AT :: t
                     end
    /\ (ftai_type d = py "@unknown" <->
        findall ascii_only (py "@lore Serena discovers the bloom") = []
        \/ hd_error (findall ascii_only (py "@lore Serena discovers the bloom"))
           = Some (py "unknown")).
Proof.
  split; [reflexivity|].
  exact (primary_tag_of_first_marker ascii_only sample_fs 100 (py "/notes/a.ftai")
           (py "@lore Serena discovers the bloom") empty_db eq_refl).
Defined.

Lemma no_marker_tag_count_witness :
  sample_fs (py "/notes/plain.ftai") = Some (Readable (py "no markers here"))
  /\ findall ascii_only (py "no markers here") = []
  /\ exists d length_digits,
    documents (snd (add_ftai_file ascii_only sample_fs 300 (py "/notes/plain.ftai") empty_db))
      = documents empty_db ++ [d]
    /\ tags d = []
    /\ str_split COMMA (tags d) = [[]]
    /\ parsed_json d
       = py "{" ++ [DQUOTE] ++ py "length" ++ [DQUOTE] ++ py ": " ++ length_digits
         ++ py ", " ++ [DQUOTE] ++ py "tag_count" ++ [DQUOTE] ++ py ": 1}"
    /\ number_of length_digits = Some (length (py "no markers here"))
    /\ ftai_type d = py "@unknown".
Proof.
  split; [reflexivity|]. split; [reflexivity|].
  exact (no_marker_tag_count ascii_only sample_fs 300 (py "/notes/plain.ftai")
           (py "no markers here") empty_db eq_refl eq_refl).
Defined.

Lemma tag_storage_round_trip_witness :
  sample_fs (py "/notes/x.ftai") = Some (Readable (py "@axb then @LORE"))
  /\ findall ascii_only (py "@axb then @LORE") <> []
  /\ Forall (fun t => Forall (fun c => is_word ascii_only c = true) t /\ ~ In COMMA t)
       (findall ascii_only (py "@axb then @LORE"))
  /\ exists d length_digits count_digits,
    documents (snd (add_ftai_file ascii_only sample_fs 200 (py "/notes/x.ftai") empty_db))
      = documents empty_db ++ [d]
    /\ tags d = str_join [COMMA] (findall ascii_only (py "@axb then @LORE"))
    /\ str_split COMMA (tags d) = findall ascii_only (py "@axb then @LORE")
    /\ parsed_json d
       = py "{" ++ [DQUOTE] ++ py "length" ++ [DQUOTE] ++ py ": " ++ length_digits
         ++ py ", " ++ [DQUOTE] ++ py "tag_count" ++ [DQUOTE] ++ py ": "
         ++ count_digits ++ py "}"
    /\ number_of length_digits = Some (length (py "@axb then @LORE"))
    /\ number_of count_digits = Some (length (findall ascii_only (py "@axb then @LORE"))).
Proof.
  assert (H : findall ascii_only (py "@axb then @LORE") <> [])
    by (vm_compute; discriminate).
  split; [reflexivity|]. split; [exact H|].
  exact (tag_storage_round_trip ascii_only sample_fs 200 (py "/notes/x.ftai")
           (py "@axb then @LORE") empty_db eq_refl H).
Defined.

Lemma store_is_append_only_witness :
  sample_fs (py "/notes/a.ftai") = Some (Readable (py "@lore Serena discovers the bloom"))
  /\ length (documents
       (run_all ascii_only
          [Ingest sample_fs 100 (py "/notes/a.ftai");
           Ingest sample_fs 101 (py "/notes/a.ftai")] sample_db))
     = length (documents sample_db) + 2.
Proof.
  split; [reflexivity|].
  destruct (store_is_append_only ascii_only
              [Retrieve None 5; Ingest sample_fs 50 (py "/notes/u.ftai")]
              sample_fs 100 101 (py "/notes/a.ftai")
              (py "@lore Serena discovers the bloom") sample_db eq_refl)
    as [_ (d1 & d2 & _ & _ & Hlen & _)].
  exact Hlen.
Defined.

(** C6 fails as stated: for the missing path the returned text begins
    "File not found: ", not "source not found: "; and the path /notes,
    which exists and cannot be read, makes the call raise. *)
Lemma not_found_message_counterexample :
  (sample_fs (py "/notes/missing.ftai") = None
   /\ add_ftai_file ascii_only sample_fs 0 (py "/notes/missing.ftai") sample_db
      = (Returns (py "File not found: /notes/missing.ftai"), sample_db)
   /\ py "File not found: /notes/missing.ftai" <> py "source not found: /notes/missing.ftai")
  /\ ((forall raw, sample_fs (py "/notes") <> Some (Readable raw))
      /\ fst (add_ftai_file ascii_only sample_fs 0 (py "/notes") sample_db) = Raises OSError).
Proof.
  repeat split; try reflexivity.
  - vm_compute. discriminate.
  - intros raw. vm_compute. discriminate.
Qed.

Lemma missing_source_reported_witness :
  (forall raw, sample_fs (py "/notes/missing.ftai") <> Some (Readable raw))
  /\ snd (add_ftai_file ascii_only sample_fs 0 (py "/notes/missing.ftai") sample_db) = sample_db
  /\ (sample_fs (py "/notes/missing.ftai") = None ->
      fst (add_ftai_file ascii_only sample_fs 0 (py "/notes/missing.ftai") sample_db)
        = Returns (py "File not found: " ++ py "/notes/missing.ftai")).
Proof.
  assert (H : forall raw, sample_fs (py "/notes/missing.ftai") <> Some (Readable raw))
    by (intros raw; vm_compute; discriminate).
  split; [exact H|].
  exact (missing_source_reported ascii_only sample_fs 0 (py "/notes/missing.ftai")
           sample_db H).
Defined.

(** * Further properties of the three functions *)

(** ** Prompt assembly *)

Lemma block_header (e : text * text) :
  block e = 35%N :: 32%N :: fst e ++ [NEWLINE] ++ snd e ++ [NEWLINE].
Proof. reflexivity. Qed.

Lemma assemble_nil_iff (es : list (text * text)) : assemble es = [] <-> es = [].
Proof.
  split; [|intros ->; reflexivity].
  destruct es as [|e es]; [reflexivity|].
  rewrite assemble_cons, block_header. discriminate.
Qed.

(** X1: the text that [inject_prompt_memory] returns is empty exactly
    when [get_context] returns no entry: one entry is enough for a
    non-empty prompt, whatever its title and content. *)
Theorem prompt_empty_iff_no_entries (db : database) (tags_ : option (list text))
    (limit : Z) :
  inject_prompt_memory db tags_ limit = Some (Returns [])
  <-> get_context db tags_ limit = Some (Returns []).
Proof.
  unfold inject_prompt_memory.
  destruct (get_context db tags_ limit) as [[es|e]|]; cbn [option_map outcome_map].
  - split; intros H; injection H as H.
    + apply assemble_nil_iff in H. now subst es.
    + now subst es.
  - split; discriminate.
  - split; discriminate.
Qed.

(** X2: the assembled text of two non-empty sequences put one after the
    other is the assembled text of the first, the separator, and the
    assembled text of the second. *)
Theorem assemble_concatenation (x y : text * text) (a b : list (text * text)) :
  assemble ((x :: a) ++ (y :: b)) = assemble (x :: a) ++ SEPARATOR ++ assemble (y :: b).
Proof.
  cbn [app]. rewrite !assemble_cons, map_app, concat_app. cbn [map concat].
  now rewrite <- !app_assoc.
Qed.

(** X3: the assembled text does not tell where an entry ends. A single
    entry whose content holds a newline, the separator and a header line
    is assembled into the very text of two entries. *)
Theorem assemble_block_boundary_ambiguous (t c t' c' : text) :
  assemble [(t, c ++ [NEWLINE] ++ SEPARATOR ++ py "# " ++ t' ++ [NEWLINE] ++ c')]
  = assemble [(t, c); (t', c')].
Proof.
  unfold assemble. cbn [map str_join]. unfold block. cbn [fst snd].
  now rewrite <- !app_assoc.
Qed.

(** ** Retrieval *)

Lemma sql_limit_incl (n : Z) (rows : list document) :
  incl (sql_limit n rows) rows /\ length (sql_limit n rows) <= length rows.
Proof.
  unfold sql_limit. destruct (n <? 0)%Z.
  - split; [apply incl_refl|lia].
  - split.
    + intros d Hd. rewrite <- (firstn_skipn (Z.to_nat n) rows).
      apply in_or_app. now left.
    + rewrite length_firstn. lia.
Qed.

Lemma filter_length_le (f : document -> bool) (rows : list document) :
  length (filter f rows) <= length rows.
Proof.
  induction rows as [|d rows IH]; simpl; [lia|].
  destruct (f d); simpl; lia.
Qed.

Lemma rows_for_incl (db : database) (tags_ : option (list text)) :
  incl (rows_for db tags_) (documents db)
  /\ length (rows_for db tags_) <= length (documents db).
Proof.
  unfold rows_for. destruct tags_ as [[|t ts]|];
    try (split; [apply incl_refl|lia]).
  split; [|apply filter_length_le].
  intros d Hd. now apply filter_In in Hd.
Qed.

(** X4: for a request without tags or with plain tags (fewer than 1000
    tags, each without quote, NUL and surrogate and with a pattern of at
    most 50000 bytes) and a limit that fits 64 bits, the call returns,
    and every entry it returns is the title and content of a stored
    document; there are no more entries than documents. *)
Theorem retrieved_entries_are_stored (db : database) (tags_ : option (list text))
    (limit : Z) :
  plain_request tags_ = true ->
  (- 2 ^ 63 <= limit < 2 ^ 63)%Z ->
  exists es,
    get_context db tags_ limit = Some (Returns es)
    /\ (forall e, In e es -> exists d, In d (documents db) /\ e = (title d, content d))
    /\ length es <= length (documents db).
Proof.
  intros Hplain Hl. rewrite (get_context_plain db tags_ limit Hplain).
  unfold select_rows. rewrite (proj2 (fits_int64_iff limit) Hl).
  eexists. split; [reflexivity|].
  destruct (rows_for_incl db tags_) as [Hincl Hlen].
  destruct (sql_limit_incl limit (order_by_timestamp_desc (rows_for db tags_)))
    as [Li Ll].
  split.
  - intros e He. apply in_map_iff in He. destruct He as (d & <- & Hd).
    exists d. split; [|reflexivity].
    apply Hincl. apply (Permutation_in d (order_by_perm (rows_for db tags_))).
    now apply Li.
  - rewrite length_map.
    rewrite (Permutation_length (order_by_perm (rows_for db tags_))) in Ll. lia.
Qed.

(** X5: for a request without tags or with plain tags, the limit only
    cuts the result short: the call with a limit [n] from 0 to 2^63 - 1
    returns the first [n] of the entries that the call with a negative
    limit returns. *)
Theorem limit_takes_prefix (db : database) (tags_ : option (list text))
    (unbounded n : Z) :
  plain_request tags_ = true ->
  (- 2 ^ 63 <= unbounded < 0)%Z ->
  (0 <= n < 2 ^ 63)%Z ->
  exists all_entries,
    get_context db tags_ unbounded = Some (Returns all_entries)
    /\ get_context db tags_ n = Some (Returns (firstn (Z.to_nat n) all_entries)).
Proof.
  intros Hplain Hneg Hn. rewrite !(get_context_plain db tags_ _ Hplain).
  rewrite select_rows_negative by assumption.
  rewrite select_rows_nonneg by assumption.
  eexists. split; [reflexivity|]. now rewrite firstn_map.
Qed.

Lemma like_refl (s : text) : like s s = true.
Proof.
  induction s as [|c s IH]; [reflexivity|].
  destruct (char_eqb c PERCENT) eqn:E.
  - apply char_eqb_eq in E. subst c. apply like_percent_iff.
    exists [PERCENT], s. split; [reflexivity|exact IH].
  - rewrite (like_char c s (c :: s) E), IH.
    rewrite (proj2 (char_eqb_eq _ _) eq_refl). now rewrite orb_true_r.
Qed.

Lemma contains_tag_query (ts : list text) (tag : text) (d : document) :
  In tag ts -> contains tag (tags d) -> tag_query ts d = true.
Proof.
  intros Hin (pre & post & E). apply tag_query_iff.
  exists tag. split; [assumption|]. exists pre, tag, post.
  split; [assumption|apply like_refl].
Qed.

Lemma matching_row_is_returned (db : database) (ts : list text) (tag : text)
    (d : document) (limit : Z) :
  plain_tags ts = true ->
  In tag ts ->
  In d (documents db) ->
  contains tag (tags d) ->
  (- 2 ^ 63 <= limit < 0)%Z ->
  exists es,
    get_context db (Some ts) limit = Some (Returns es)
    /\ In (title d, content d) es.
Proof.
  intros Hplain Hin Hd Hc Hl.
  rewrite (get_context_plain db (Some ts) limit Hplain).
  rewrite select_rows_negative by assumption.
  eexists. split; [reflexivity|].
  apply (in_map (fun d => (title d, content d))).
  apply (Permutation_in d (Permutation_sym (order_by_perm _))).
  destruct ts as [|t ts']; [contradiction|]. cbn [rows_for].
  apply filter_In. split; [assumption|].
  now apply (contains_tag_query (t :: ts') tag d).
Qed.

(** X6: for plain tags the substring reading of the filter never misses
    a document: a stored document whose tag string contains one of the
    requested tags is among the entries returned with a negative
    limit. *)
Theorem substring_match_is_returned (db : database) (ts : list text) (tag : text)
    (d : document) (limit : Z) :
  plain_tags ts = true ->
  In tag ts ->
  In d (documents db) ->
  contains tag (tags d) ->
  (- 2 ^ 63 <= limit < 0)%Z ->
  exists es,
    get_context db (Some ts) limit = Some (Returns es)
    /\ In (title d, content d) es.
Proof. exact (matching_row_is_returned db ts tag d limit). Qed.

(** X7: an empty tag in a list of plain tags switches the filter off:
    "%%" matches every tag string, so the call returns what it returns
    without tags. *)
Theorem empty_tag_matches_everything (db : database) (ts : list text) (limit : Z) :
  In [] ts ->
  plain_tags ts = true ->
  get_context db (Some ts) limit = get_context db None limit.
Proof.
  intros Hin Hplain.
  rewrite (get_context_plain db (Some ts) limit Hplain).
  rewrite (get_context_plain db None limit eq_refl).
  destruct ts as [|t ts']; [contradiction|]. cbn [rows_for].
  assert (E : filter (tag_query (t :: ts')) (documents db) = documents db).
  { induction (documents db) as [|d rows IH]; [reflexivity|].
    cbn [filter]. rewrite IH.
    assert (Q : tag_query (t :: ts') d = true).
    { apply (contains_tag_query (t :: ts') [] d Hin). now exists [], (tags d). }
    now rewrite Q. }
  now rewrite E.
Qed.

(** X8: among plain tag lists only the set of requested tags matters:
    two non-empty lists with the same members, in any order and with
    repetitions, each of fewer than 1000 tags, give the same result. *)
Theorem tag_order_is_irrelevant (db : database) (ts ts' : list text) (limit : Z) :
  plain_tags ts = true ->
  plain_tags ts' = true ->
  ts <> [] ->
  (forall t, In t ts <-> In t ts') ->
  get_context db (Some ts) limit = get_context db (Some ts') limit.
Proof.
  intros Hplain Hplain' Hne Hsame.
  assert (Hne' : ts' <> []).
  { destruct ts as [|t ts0]; [congruence|]. intros ->.
    apply (proj1 (Hsame t)). now left. }
  assert (Q : forall d, tag_query ts d = tag_query ts' d).
  { intros d. apply eq_true_iff_eq. unfold tag_query. rewrite !existsb_exists.
    split; intros (t & Ht & H); exists t; (split; [now apply Hsame|assumption]). }
  rewrite (get_context_plain db (Some ts) limit Hplain).
  rewrite (get_context_plain db (Some ts') limit Hplain').
  destruct ts as [|t ts0]; [congruence|]. destruct ts' as [|t' ts0']; [congruence|].
  cbn [rows_for]. now rewrite (filter_ext _ _ Q).
Qed.

(** ** Retrieval after ingestion *)

Lemma filter_app_rows (f : document -> bool) (a b : list document) :
  filter f (a ++ b) = filter f a ++ filter f b.
Proof.
  induction a as [|d a IH]; [reflexivity|].
  simpl. destruct (f d); simpl; now rewrite IH.
Qed.

Lemma rows_for_grows (db db' : database) (tags_ : option (list text))
    (new : list document) :
  documents db' = documents db ++ new ->
  incl (rows_for db tags_) (rows_for db' tags_).
Proof.
  intros E. unfold rows_for. rewrite E.
  destruct tags_ as [[|t ts]|]; try (intros d Hd; apply in_or_app; now left).
  rewrite filter_app_rows. intros d Hd. apply in_or_app. now left.
Qed.

(** X9: for a request without tags or with plain tags and a negative
    limit the result only grows: whatever operations run in between,
    every entry that the call returned before is returned after. *)
Theorem unbounded_retrieval_only_grows (unicode_alnum : char -> bool)
    (ops : list operation) (db : database) (tags_ : option (list text))
    (limit : Z) :
  plain_request tags_ = true ->
  (- 2 ^ 63 <= limit < 0)%Z ->
  exists es es',
    get_context db tags_ limit = Some (Returns es)
    /\ get_context (run_all unicode_alnum ops db) tags_ limit = Some (Returns es')
    /\ incl es es'.
Proof.
  intros Hplain Hneg.
  destruct (run_all_appends unicode_alnum ops db) as [new Hnew].
  rewrite !(get_context_plain _ tags_ limit Hplain).
  rewrite !select_rows_negative by assumption.
  eexists. eexists. split; [reflexivity|]. split; [reflexivity|].
  intros e He. apply in_map_iff in He. destruct He as (d & <- & Hd).
  apply (in_map (fun d => (title d, content d))).
  apply (Permutation_in d (Permutation_sym (order_by_perm _))).
  apply (Permutation_in d (order_by_perm _)) in Hd.
  now apply (rows_for_grows db _ tags_ new Hnew).
Qed.

Lemma order_by_newest_last (rows : list document) (d : document) :
  Forall (fun e => (timestamp e < timestamp d)%Z) rows ->
  order_by_timestamp_desc (rows ++ [d]) = d :: order_by_timestamp_desc rows.
Proof.
  unfold order_by_timestamp_desc. rewrite fold_right_app. cbn [fold_right insert_desc].
  induction 1 as [|e rows He _ IH]; [reflexivity|].
  cbn [fold_right]. rewrite IH. cbn [insert_desc].
  destruct (timestamp d <=? timestamp e)%Z eqn:C; [lia|reflexivity].
Qed.

(** X10: a source ingested at a time later than every stored timestamp
    comes first in the retrieval without tags, for every limit from 1. *)
Theorem latest_ingest_is_first (unicode_alnum : char -> bool) (fs : filesystem)
    (now : Z) (file_path raw : text) (db : database) (limit : Z) :
  fs file_path = Some (Readable raw) ->
  Forall (fun d => (timestamp d < now)%Z) (documents db) ->
  (1 <= limit < 2 ^ 63)%Z ->
  exists older,
    get_context (snd (add_ftai_file unicode_alnum fs now file_path db)) None limit
    = Some (Returns ((basename file_path, raw) :: older)).
Proof.
  intros H Hold Hl.
  rewrite (add_ftai_file_readable unicode_alnum fs now file_path raw db H).
  cbn [snd]. unfold get_context, insert_document. cbn [documents].
  rewrite select_rows_nonneg by lia.
  rewrite order_by_newest_last by exact Hold.
  destruct (Z.to_nat limit) as [|k] eqn:K; [lia|].
  cbn [firstn map title content]. eexists. reflexivity.
Qed.

(** ** Ingestion *)

(** X11: the returned value tells whether a record was created: one is
    appended exactly when the call returns a text that begins with
    "Imported ". *)
Theorem record_created_iff_imported (unicode_alnum : char -> bool) (fs : filesystem)
    (now : Z) (file_path : text) (db : database) :
  (exists d, documents (snd (add_ftai_file unicode_alnum fs now file_path db))
             = documents db ++ [d])
  <-> (exists rest, fst (add_ftai_file unicode_alnum fs now file_path db)
                    = Returns (py "Imported " ++ rest)).
Proof.
  assert (N : forall d, documents db <> documents db ++ [d]).
  { intros d E. apply (f_equal (@length document)) in E.
    rewrite length_app in E. simpl in E. lia. }
  unfold add_ftai_file. destruct (fs file_path) as [[raw|]|]; cbn [fst snd].
  - split; intros _.
    + eexists. reflexivity.
    + eexists. reflexivity.
  - split.
    + intros [d E]. now apply N in E.
    + intros [rest E]. discriminate E.
  - split.
    + intros [d E]. now apply N in E.
    + intros [rest E]. discriminate E.
Qed.

Lemma existsb_slash_false (p : text) :
  existsb (char_eqb SLASH) p = false -> ~ In SLASH p.
Proof.
  intros E Hin.
  assert (T : existsb (char_eqb SLASH) p = true).
  { apply existsb_exists. exists SLASH. split; [assumption|].
    now apply char_eqb_eq. }
  congruence.
Qed.

Lemma basename_spec (p : text) :
  exists dir,
    p = dir ++ basename p
    /\ ~ In SLASH (basename p)
    /\ (dir = [] \/ exists dir', dir = dir' ++ [SLASH]).
Proof.
  induction p as [|x p IH].
  - exists []. repeat split; [intros []|now left].
  - cbn [basename]. destruct (existsb (char_eqb SLASH) p) eqn:E.
    + destruct IH as (dir & Hp & Hno & Hdir).
      exists (x :: dir). split; [cbn [app]; now rewrite <- Hp|].
      split; [assumption|]. right.
      destruct Hdir as [-> | (dir' & ->)].
      * exfalso. simpl in Hp. rewrite <- Hp in Hno.
        apply existsb_exists in E. destruct E as (c & Hc & Ec).
        apply char_eqb_eq in Ec. subst c. contradiction.
      * now exists (x :: dir').
    + apply existsb_slash_false in E.
      destruct (char_eqb x SLASH) eqn:X.
      * apply char_eqb_eq in X. subst x. exists [SLASH].
        repeat split; [assumption|]. right. now exists [].
      * apply char_eqb_neq in X. exists [].
        repeat split; [|now left].
        intros [Hx|Hin]; [congruence|contradiction].
Qed.

(** X12: the stored title is the last component of the path: the path
    is a directory part, empty or ending in "/", followed by the title,
    and the title holds no "/". *)
Theorem stored_title_is_last_component (unicode_alnum : char -> bool)
    (fs : filesystem) (now : Z) (file_path raw : text) (db : database) :
  fs file_path = Some (Readable raw) ->
  exists d dir,
    documents (snd (add_ftai_file unicode_alnum fs now file_path db))
      = documents db ++ [d]
    /\ file_path = dir ++ title d
    /\ ~ In SLASH (title d)
    /\ (dir = [] \/ exists dir', dir = dir' ++ [SLASH]).
Proof.
  intros H. rewrite (add_ftai_file_readable unicode_alnum fs now file_path raw db H).
  destruct (basename_spec file_path) as (dir & Hp & Hno & Hdir).
  eexists. exists dir. split; [reflexivity|]. cbn [title]. now repeat split.
Qed.

Lemma in_str_join_contains (sep t : text) (parts : list text) :
  In t parts -> contains t (str_join sep parts).
Proof.
  induction parts as [|p rest IH]; [intros []|].
  intros [-> | Hin].
  - destruct rest as [|q rest'].
    + exists [], []. simpl. now rewrite app_nil_r.
    + exists [], (sep ++ str_join sep (q :: rest')). reflexivity.
  - destruct rest as [|q rest']; [destruct Hin|].
    destruct (IH Hin) as (pre & post & E).
    exists (p ++ sep ++ pre), post.
    change (str_join sep (p :: q :: rest'))
      with (p ++ sep ++ str_join sep (q :: rest')).
    rewrite E. now rewrite <- !app_assoc.
Qed.

(** X13: what was ingested can be found again by its tags: after the
    ingestion of a readable source, the retrieval with one of the
    extracted tags and a negative limit returns its title and content,
    provided the tag is plain (no surrogate in it, and a pattern of at
    most 50000 bytes: a tag of at most 49998). *)
Theorem ingested_source_found_by_its_tags (unicode_alnum : char -> bool)
    (fs : filesystem) (now : Z) (file_path raw : text) (db : database)
    (tag : text) (limit : Z) :
  fs file_path = Some (Readable raw) ->
  In tag (findall unicode_alnum raw) ->
  plain_tags [tag] = true ->
  (- 2 ^ 63 <= limit < 0)%Z ->
  exists es,
    get_context (snd (add_ftai_file unicode_alnum fs now file_path db))
      (Some [tag]) limit = Some (Returns es)
    /\ In (basename file_path, raw) es.
Proof.
  intros H Hin Hplain Hl.
  rewrite (add_ftai_file_readable unicode_alnum fs now file_path raw db H).
  cbn [snd].
  set (d := {| id := next_rowid db; title := basename file_path;
               ftai_type := ftai_type_of unicode_alnum raw; content := raw;
               parsed_json := parsed_json_of unicode_alnum raw;
               tags := tags_of unicode_alnum raw; timestamp := now |}).
  apply (matching_row_is_returned _ [tag] tag d limit).
  - exact Hplain.
  - now left.
  - unfold insert_document. cbn [documents]. apply in_or_app. right. now left.
  - subst d. cbn [tags]. unfold tags_of. now apply in_str_join_contains.
  - assumption.
Qed.

Lemma tag_runs_bound (unicode_alnum : char -> bool) (s : text) :
  length (tag_runs unicode_alnum s) <= count_occ N.eq_dec s AT.
Proof.
  induction s as [|c s IH]; [simpl; lia|].
  cbn [tag_runs count_occ]. rewrite length_app.
  unfold run_after_marker. destruct (N.eq_dec c AT) as [->|Hne].
  - rewrite (proj2 (char_eqb_eq AT AT) eq_refl).
    destruct (take_while (is_word unicode_alnum) s); simpl; lia.
  - rewrite (proj2 (char_eqb_neq c AT) Hne). simpl. lia.
Qed.

(** X14: a source has at most as many tags as it has "@" characters; a
    text without "@" has none. *)
Theorem tags_bounded_by_markers (unicode_alnum : char -> bool) (raw : text) :
  length (findall unicode_alnum raw) <= count_occ N.eq_dec raw AT.
Proof. rewrite findall_tag_runs. apply tag_runs_bound. Qed.

Lemma str_split_join_length (c : char) (parts : list text) :
  Forall (fun p => ~ In c p) parts ->
  length (str_split c (str_join [c] parts)) = Nat.max 1 (length parts).
Proof.
  intros Hall. destruct parts as [|p rest]; [reflexivity|].
  rewrite str_split_join; [|discriminate|assumption]. simpl. lia.
Qed.

(** X15: the stored [tag_count] is never 0: it is the number of
    extracted tags, and 1 when there is none. *)
Theorem tag_count_is_max_one (unicode_alnum : char -> bool) (raw : text) :
  tag_count_of unicode_alnum raw = Nat.max 1 (length (findall unicode_alnum raw))
  /\ parsed_json_of unicode_alnum raw
     = json_dumps (length raw) (Nat.max 1 (length (findall unicode_alnum raw))).
Proof.
  assert (E : tag_count_of unicode_alnum raw
              = Nat.max 1 (length (findall unicode_alnum raw))).
  { unfold tag_count_of, tags_of. apply str_split_join_length.
    apply findall_no_comma. }
  split; [exact E|]. unfold parsed_json_of. now rewrite E.
Qed.

(** ** Row ids *)

Lemma max_rowid_ge (rows : list document) (d : document) :
  In d rows -> (id d <= max_rowid rows)%Z.
Proof.
  induction rows as [|e rows IH]; [intros []|].
  cbn [max_rowid fold_right]. fold (max_rowid rows).
  intros [-> | Hin]; [lia|]. specialize (IH Hin). lia.
Qed.

Lemma max_rowid_le (rows : list document) (bound : Z) :
  (0 <= bound)%Z -> Forall (fun d => (id d <= bound)%Z) rows ->
  (max_rowid rows <= bound)%Z.
Proof.
  intros Hb. induction 1 as [|e rows He _ IH]; [simpl; lia|].
  cbn [max_rowid fold_right]. fold (max_rowid rows). lia.
Qed.

Lemma strongly_sorted_snoc (l : list Z) (y : Z) :
  StronglySorted Z.lt l -> Forall (fun x => (x < y)%Z) l ->
  StronglySorted Z.lt (l ++ [y]).
Proof.
  induction 1 as [|x l S IH Hx]; intros Hall; cbn [app].
  - repeat constructor.
  - inversion Hall as [|? ? Hxy Hl]; subst. constructor; [now apply IH|].
    apply Forall_app. split; [assumption|]. now constructor.
Qed.

Lemma strongly_sorted_lt_nodup (l : list Z) : StronglySorted Z.lt l -> NoDup l.
Proof.
  induction 1 as [|x l S IH Hx]; constructor; [|assumption].
  intros Hin. rewrite Forall_forall in Hx. specialize (Hx _ Hin). lia.
Qed.

Lemma run_keeps_ids_increasing (unicode_alnum : char -> bool) (op : operation)
    (db : database) :
  StronglySorted Z.lt (map id (documents db)) ->
  StronglySorted Z.lt (map id (documents (run unicode_alnum op db))).
Proof.
  intros S. destruct op as [fs now file_path| |]; cbn [run]; try assumption.
  unfold add_ftai_file. destruct (fs file_path) as [[raw|]|]; cbn [snd]; try assumption.
  unfold insert_document. cbn [documents]. rewrite map_app. cbn [map id].
  apply strongly_sorted_snoc; [assumption|].
  apply Forall_forall. intros x Hx. apply in_map_iff in Hx.
  destruct Hx as (d & <- & Hd). pose proof (max_rowid_ge _ _ Hd).
  unfold next_rowid. lia.
Qed.

(** X16: the row ids stay strictly increasing in table order, and so
    distinct, under every sequence of operations: no ingest reuses or
    undercuts an id that the table holds. *)
Theorem rowids_stay_increasing (unicode_alnum : char -> bool)
    (ops : list operation) (db : database) :
  StronglySorted Z.lt (map id (documents db)) ->
  StronglySorted Z.lt (map id (documents (run_all unicode_alnum ops db)))
  /\ NoDup (map id (documents (run_all unicode_alnum ops db))).
Proof.
  intros S.
  assert (G : StronglySorted Z.lt (map id (documents (run_all unicode_alnum ops db)))).
  { unfold run_all. revert db S. induction ops as [|op ops IH]; intros db S.
    - exact S.
    - cbn [fold_left]. apply IH. now apply run_keeps_ids_increasing. }
  split; [exact G|now apply strongly_sorted_lt_nodup].
Qed.

Lemma run_keeps_ids_consecutive (unicode_alnum : char -> bool) (op : operation)
    (db : database) :
  map id (documents db) = map Z.of_nat (seq 1 (length (documents db)))
  /\ sqlite_sequence db = Z.of_nat (length (documents db)) ->
  map id (documents (run unicode_alnum op db))
    = map Z.of_nat (seq 1 (length (documents (run unicode_alnum op db))))
  /\ sqlite_sequence (run unicode_alnum op db)
     = Z.of_nat (length (documents (run unicode_alnum op db))).
Proof.
  intros [Hids Hseq].
  destruct op as [fs now file_path| |]; cbn [run]; try (split; assumption).
  unfold add_ftai_file.
  destruct (fs file_path) as [[raw|]|]; cbn [snd]; try (split; assumption).
  assert (Hnext : next_rowid db = Z.of_nat (S (length (documents db)))).
  { unfold next_rowid. rewrite Hseq.
    assert (M : (max_rowid (documents db) <= Z.of_nat (length (documents db)))%Z).
    { apply max_rowid_le; [lia|]. apply Forall_forall. intros d Hd.
      assert (Hin : In (id d) (map id (documents db))) by now apply in_map.
      rewrite Hids in Hin. apply in_map_iff in Hin.
      destruct Hin as (k & <- & Hk). apply in_seq in Hk. lia. }
    lia. }
  unfold insert_document. cbn [documents sqlite_sequence].
  rewrite length_app. cbn [length]. rewrite Nat.add_1_r.
  split; [|exact Hnext].
  rewrite map_app, seq_S, map_app. cbn [map id]. now rewrite Hids, Hnext.
Qed.

(** X17: in a store that starts empty the row ids are 1, 2, 3, ... in
    the order of ingestion, without gaps, whatever operations run and
    whichever of the ingests fail. *)
Theorem rowids_count_from_one (unicode_alnum : char -> bool) (ops : list operation) :
  map id (documents (run_all unicode_alnum ops empty_db))
  = map Z.of_nat (seq 1 (length (documents (run_all unicode_alnum ops empty_db)))).
Proof.
  assert (G : forall db,
    map id (documents db) = map Z.of_nat (seq 1 (length (documents db)))
    /\ sqlite_sequence db = Z.of_nat (length (documents db)) ->
    map id (documents (run_all unicode_alnum ops db))
      = map Z.of_nat (seq 1 (length (documents (run_all unicode_alnum ops db))))
    /\ sqlite_sequence (run_all unicode_alnum ops db)
       = Z.of_nat (length (documents (run_all unicode_alnum ops db)))).
  { unfold run_all. induction ops as [|op ops IH]; intros db Inv.
    - exact Inv.
    - cbn [fold_left]. apply IH. now apply run_keeps_ids_consecutive. }
  apply G. split; reflexivity.
Qed.

(** ** Schema creation: folk_mind.db *)

Lemma init_db_all_present (f : FolkMind.file) :
  exists db u n t,
    FolkMind.init_db f
    = {| FolkMind.documents_table := Some db; FolkMind.user_preferences := Some u;
         FolkMind.notes := Some n; FolkMind.tasks := Some t |}
    /\ db = match FolkMind.documents_table f with
            | Some present => present
            | None => empty_db
            end.
Proof.
  destruct f as [[db|] [u|] [n|] [t|]]; unfold FolkMind.init_db;
    cbn [create_table_if_not_exists FolkMind.documents_table
         FolkMind.user_preferences FolkMind.notes FolkMind.tasks];
    do 4 eexists; split; reflexivity.
Qed.

Lemma run_in_keeps_tables (unicode_alnum : char -> bool) (o : file_operation)
    (db : database) (u n t : list (list sql_value)) :
  exists db' new,
    run_in unicode_alnum o
      {| FolkMind.documents_table := Some db; FolkMind.user_preferences := Some u;
         FolkMind.notes := Some n; FolkMind.tasks := Some t |}
    = {| FolkMind.documents_table := Some db'; FolkMind.user_preferences := Some u;
         FolkMind.notes := Some n; FolkMind.tasks := Some t |}
    /\ documents db' = documents db ++ new.
Proof.
  destruct o as [|[fs now file_path| |]]; cbn [run_in].
  - exists db, []. split; [reflexivity|now rewrite app_nil_r].
  - unfold add_ftai_file_in, add_ftai_file.
    destruct (fs file_path) as [[raw|]|]; cbn [snd FolkMind.documents_table].
    + eexists. eexists. split; [reflexivity|]. reflexivity.
    + exists db, []. split; [reflexivity|now rewrite app_nil_r].
    + exists db, []. split; [reflexivity|now rewrite app_nil_r].
  - exists db, []. split; [reflexivity|now rewrite app_nil_r].
  - exists db, []. split; [reflexivity|now rewrite app_nil_r].
Qed.

Lemma run_all_in_keeps_tables (unicode_alnum : char -> bool)
    (os : list file_operation) (db : database) (u n t : list (list sql_value)) :
  exists db' new,
    run_all_in unicode_alnum os
      {| FolkMind.documents_table := Some db; FolkMind.user_preferences := Some u;
         FolkMind.notes := Some n; FolkMind.tasks := Some t |}
    = {| FolkMind.documents_table := Some db'; FolkMind.user_preferences := Some u;
         FolkMind.notes := Some n; FolkMind.tasks := Some t |}
    /\ documents db' = documents db ++ new.
Proof.
  unfold run_all_in. revert db. induction os as [|o os IH]; intros db.
  - exists db, []. split; [reflexivity|now rewrite app_nil_r].
  - cbn [fold_left].
    destruct (run_in_keeps_tables unicode_alnum o db u n t) as (db1 & new1 & -> & E1).
    destruct (IH db1) as (db2 & new2 & -> & E2).
    exists db2, (new1 ++ new2). split; [reflexivity|].
    now rewrite E2, E1, app_assoc.
Qed.

(** X18: once [init_db] has run, whatever operations follow (ingests,
    reads, further calls of [init_db]): the [documents] table is there
    and still begins with the rows it had before; running [init_db]
    again changes nothing; and [add_ftai_file] is never refused for a
    missing table, its result is the one computed on the table. *)
Theorem operations_after_init_db (unicode_alnum : char -> bool)
    (os : list file_operation) (f : FolkMind.file) :
  exists db' new,
    FolkMind.documents_table (run_all_in unicode_alnum os (FolkMind.init_db f))
      = Some db'
    /\ documents db'
       = documents match FolkMind.documents_table f with
                   | Some present => present
                   | None => empty_db
                   end ++ new
    /\ FolkMind.init_db (run_all_in unicode_alnum os (FolkMind.init_db f))
       = run_all_in unicode_alnum os (FolkMind.init_db f)
    /\ forall fs now file_path,
         fst (add_ftai_file_in unicode_alnum fs now file_path
                (run_all_in unicode_alnum os (FolkMind.init_db f)))
         = Completed (fst (add_ftai_file unicode_alnum fs now file_path db')).
Proof.
  destruct (init_db_all_present f) as (db & u & n & t & -> & Hdb).
  destruct (run_all_in_keeps_tables unicode_alnum os db u n t)
    as (db' & new & -> & E).
  exists db', new. split; [reflexivity|]. split; [now rewrite <- Hdb|].
  split; [reflexivity|].
  intros fs now file_path. unfold add_ftai_file_in, add_ftai_file.
  cbn [FolkMind.documents_table].
  destruct (fs file_path) as [[raw|]|]; reflexivity.
Qed.

(** ** Schema creation: serena_memory.db *)

Lemma executemany_payload (clock : nat -> Z) (ms : list (text * text * text * text))
    (k : nat) (a : SerenaMemory.archive) :
  map SerenaMemory.payload (SerenaMemory.memories (SerenaMemory.executemany clock k ms a))
  = map SerenaMemory.payload (SerenaMemory.memories a) ++ ms.
Proof.
  revert k a. induction ms as [|m ms IH]; intros k a.
  - cbn [SerenaMemory.executemany]. now rewrite app_nil_r.
  - cbn [SerenaMemory.executemany]. rewrite IH.
    destruct m as [[[c t] co] ta]. unfold SerenaMemory.insert_memory.
    cbn [SerenaMemory.memories]. rewrite map_app. cbn [map SerenaMemory.payload
      SerenaMemory.category SerenaMemory.title SerenaMemory.content SerenaMemory.tags].
    now rewrite <- app_assoc.
Qed.

Lemma serena_init_db_archive (clock : nat -> Z) (f : SerenaMemory.file) :
  exists a,
    SerenaMemory.memory_archive (SerenaMemory.init_db clock f) = Some a
    /\ map SerenaMemory.payload (SerenaMemory.memories a)
       = map SerenaMemory.payload
           match SerenaMemory.memory_archive f with
           | Some present => SerenaMemory.memories present
           | None => []
           end ++ SerenaMemory.foundational_memories.
Proof.
  unfold SerenaMemory.init_db. cbn [SerenaMemory.memory_archive].
  eexists. split; [reflexivity|]. rewrite executemany_payload.
  now destruct (SerenaMemory.memory_archive f).
Qed.

(** X19: the second [init_db] is not idempotent: every call appends the
    eight foundational memories, in the order of the script, behind the
    rows that [memory_archive] holds. After n calls the table has grown
    by 8 n rows, n copies of the eight. *)
Theorem init_db_repeats_foundational_memories (clock : nat -> Z)
    (clocks : list (nat -> Z)) (f : SerenaMemory.file) :
  exists a,
    SerenaMemory.memory_archive
      (fold_left (fun g c => SerenaMemory.init_db c g) clocks
         (SerenaMemory.init_db clock f)) = Some a
    /\ map SerenaMemory.payload (SerenaMemory.memories a)
       = map SerenaMemory.payload
           match SerenaMemory.memory_archive f with
           | Some present => SerenaMemory.memories present
           | None => []
           end
         ++ concat (repeat SerenaMemory.foundational_memories (S (length clocks)))
    /\ length (SerenaMemory.memories a)
       = length match SerenaMemory.memory_archive f with
                | Some present => SerenaMemory.memories present
                | None => []
                end
         + 8 * S (length clocks).
Proof.
  assert (G : forall cs g a0,
    SerenaMemory.memory_archive g = Some a0 ->
    exists a,
      SerenaMemory.memory_archive
        (fold_left (fun g c => SerenaMemory.init_db c g) cs g) = Some a
      /\ map SerenaMemory.payload (SerenaMemory.memories a)
         = map SerenaMemory.payload (SerenaMemory.memories a0)
           ++ concat (repeat SerenaMemory.foundational_memories (length cs))).
  { induction cs as [|c cs IH]; intros g a0 Hg.
    - exists a0. split; [exact Hg|]. simpl. now rewrite app_nil_r.
    - cbn [fold_left length repeat concat].
      destruct (serena_init_db_archive c g) as (a1 & H1 & P1).
      rewrite Hg in P1.
      destruct (IH _ a1 H1) as (a & Ha & Pa).
      exists a. split; [exact Ha|]. rewrite Pa, P1. now rewrite <- app_assoc. }
  destruct (serena_init_db_archive clock f) as (a1 & H1 & P1).
  destruct (G clocks _ a1 H1) as (a & Ha & Pa).
  assert (P : map SerenaMemory.payload (SerenaMemory.memories a)
              = map SerenaMemory.payload
                  match SerenaMemory.memory_archive f with
                  | Some present => SerenaMemory.memories present
                  | None => []
                  end
                ++ concat (repeat SerenaMemory.foundational_memories
                             (S (length clocks)))).
  { rewrite Pa, P1. cbn [repeat concat]. now rewrite <- app_assoc. }
  exists a. split; [exact Ha|]. split; [exact P|].
  apply (f_equal (@length _)) in P. rewrite length_map, length_app, length_map in P.
  rewrite P. f_equal.
  clear. induction (S (length clocks)) as [|n IH]; [reflexivity|].
  cbn [repeat concat]. rewrite length_app, IH.
  change (length SerenaMemory.foundational_memories) with 8. lia.
Qed.

(** ** More on tags *)

Lemma take_while_stops (p : char -> bool) (a b : text) (sep : char) :
  p sep = false -> take_while p (a ++ sep :: b) = take_while p a.
Proof.
  intros Hsep. induction a as [|x a IH]; cbn [app take_while].
  - now rewrite Hsep.
  - destruct (p x); [now rewrite IH|reflexivity].
Qed.

Lemma tag_runs_app (unicode_alnum : char -> bool) (a b : text) (sep : char) :
  is_word unicode_alnum sep = false -> sep <> AT ->
  tag_runs unicode_alnum (a ++ sep :: b)
  = tag_runs unicode_alnum a ++ tag_runs unicode_alnum b.
Proof.
  intros Hw Hat. induction a as [|x a IH]; cbn [app tag_runs].
  - unfold run_after_marker. now rewrite (proj2 (char_eqb_neq sep AT) Hat).
  - rewrite IH, <- app_assoc. f_equal.
    unfold run_after_marker. now rewrite take_while_stops.
Qed.

(** X20: tags are found piece by piece: when two texts are joined by a
    character that is neither a word character nor "@" (a newline, a
    space, a comma), the tags of the whole are the tags of the first
    followed by the tags of the second. *)
Theorem tags_of_joined_texts (unicode_alnum : char -> bool) (a b : text) (sep : char) :
  is_word unicode_alnum sep = false ->
  sep <> AT ->
  findall unicode_alnum (a ++ sep :: b)
  = findall unicode_alnum a ++ findall unicode_alnum b.
Proof.
  intros Hw Hat. rewrite !findall_tag_runs. now apply tag_runs_app.
Qed.

(** ** The letter case of a requested tag *)

Lemma in_range_iff (lo hi c : char) :
  in_range lo hi c = true <-> (lo <= c <= hi)%N.
Proof.
  unfold in_range. rewrite andb_true_iff, !N.leb_le. tauto.
Qed.

Lemma ascii_upper_cases (c : char) :
  ((97 <= c <= 122)%N /\ ascii_upper c = (c - 32)%N)
  \/ (~ (97 <= c <= 122)%N /\ ascii_upper c = c).
Proof.
  unfold ascii_upper. destruct (in_range 97%N 122%N c) eqn:E.
  - left. split; [now apply in_range_iff|reflexivity].
  - right. split; [|reflexivity]. intros H. apply in_range_iff in H. congruence.
Qed.

Lemma ascii_upper_idempotent (c : char) : ascii_upper (ascii_upper c) = ascii_upper c.
Proof.
  destruct (ascii_upper_cases c) as [[R ->]|[R ->]].
  - destruct (ascii_upper_cases (c - 32)%N) as [[R' _]|[_ ->]]; [lia|reflexivity].
  - destruct (ascii_upper_cases c) as [[R' _]|[_ ->]]; [contradiction|reflexivity].
Qed.

Lemma ascii_upper_keeps (c k : char) :
  ~ (65 <= k <= 90)%N -> ~ (97 <= k <= 122)%N ->
  char_eqb (ascii_upper c) k = char_eqb c k.
Proof.
  intros Hk Hk'. apply eq_true_iff_eq. rewrite !char_eqb_eq.
  destruct (ascii_upper_cases c) as [[R ->]|[R ->]]; [|tauto].
  split; intros E; subst k; lia.
Qed.

Lemma like_upper (pattern s : text) : like (upper pattern) s = like pattern s.
Proof.
  revert s. induction pattern as [|p pattern IH]; intros s; [reflexivity|].
  cbn [upper map]. fold (upper pattern).
  assert (P : char_eqb (ascii_upper p) PERCENT = char_eqb p PERCENT)
    by (apply ascii_upper_keeps; unfold PERCENT; lia).
  destruct (char_eqb p PERCENT) eqn:E.
  - apply char_eqb_eq in P. apply char_eqb_eq in E. rewrite P, E.
    induction s as [|c s IHs].
    + rewrite (like_percent (upper pattern) []), (like_percent pattern []).
      now rewrite IH.
    + rewrite (like_percent (upper pattern) (c :: s)), (like_percent pattern (c :: s)).
      now rewrite IH, IHs.
  - rewrite (like_char _ (upper pattern) s P), (like_char p pattern s E).
    destruct s as [|c s]; [reflexivity|].
    rewrite IH, ascii_upper_idempotent.
    now rewrite (ascii_upper_keeps p UNDERSCORE) by (unfold UNDERSCORE; lia).
Qed.

Lemma plain_char_upper (c : char) : plain_char (ascii_upper c) = plain_char c.
Proof.
  destruct (ascii_upper_cases c) as [[R ->]|[R ->]]; [|reflexivity].
  assert (P : forall k, (65 <= k <= 122)%N -> plain_char k = true).
  { intros k Hk. unfold plain_char, is_code_point, is_surrogate, in_range, char_eqb, NUL, QUOTE.
    rewrite (proj2 (N.leb_le k 1114111)) by lia.
    rewrite (proj2 (N.leb_gt 55296 k)) by lia.
    rewrite (proj2 (N.eqb_neq 0 k)) by lia.
    now rewrite (proj2 (N.eqb_neq 39 k)) by lia. }
  rewrite !P by lia. reflexivity.
Qed.

Lemma utf8_bytes_upper (c : char) : utf8_bytes (ascii_upper c) = utf8_bytes c.
Proof.
  destruct (ascii_upper_cases c) as [[R ->]|[R ->]]; [|reflexivity].
  unfold utf8_bytes.
  rewrite (proj2 (N.ltb_lt (c - 32) 128)) by lia.
  now rewrite (proj2 (N.ltb_lt c 128)) by lia.
Qed.

Lemma plain_tag_upper (tag : text) : plain_tag (upper tag) = plain_tag tag.
Proof.
  unfold plain_tag, fits_like.
  assert (C : forallb plain_char (upper tag) = forallb plain_char tag).
  { induction tag as [|c tag IH]; [reflexivity|].
    cbn [upper map forallb]. fold (upper tag). now rewrite IH, plain_char_upper. }
  assert (L : utf8_length (upper tag) = utf8_length tag).
  { clear C. unfold utf8_length, upper.
    induction tag as [|c tag IH]; [reflexivity|].
    cbn [map fold_right]. now rewrite IH, utf8_bytes_upper. }
  now rewrite C, L.
Qed.

Lemma plain_tags_upper (ts : list text) : plain_tags (map upper ts) = plain_tags ts.
Proof.
  unfold plain_tags. rewrite length_map. f_equal.
  induction ts as [|t ts IH]; [reflexivity|].
  cbn [map forallb]. now rewrite IH, plain_tag_upper.
Qed.

(** X21: for plain tags the letter case of a requested tag does not
    matter: the call with the tags written in ASCII capitals returns
    what the call with the tags as given returns. *)
Theorem requested_tag_case_is_irrelevant (db : database) (ts : list text) (limit : Z) :
  plain_tags ts = true ->
  get_context db (Some (map upper ts)) limit = get_context db (Some ts) limit.
Proof.
  intros Hplain.
  assert (Hplain' : plain_tags (map upper ts) = true)
    by now rewrite plain_tags_upper.
  assert (Q : forall d, tag_query (map upper ts) d = tag_query ts d).
  { intros d. unfold tag_query. clear. induction ts as [|t ts IH]; [reflexivity|].
    cbn [map existsb]. rewrite IH. f_equal.
    change (PERCENT :: upper t ++ [PERCENT]) with ((PERCENT :: upper t) ++ [PERCENT]).
    change (PERCENT :: t ++ [PERCENT]) with ((PERCENT :: t) ++ [PERCENT]).
    apply eq_true_iff_eq. rewrite !like_app.
    split; intros (s1 & s2 & E & H1 & H2); exists s1, s2;
      (split; [exact E|]); (split; [|exact H2]).
    - apply like_percent_iff in H1. destruct H1 as (pre & rest & -> & H1).
      apply like_percent_iff. exists pre, rest. split; [reflexivity|].
      now rewrite <- like_upper.
    - apply like_percent_iff in H1. destruct H1 as (pre & rest & -> & H1).
      apply like_percent_iff. exists pre, rest. split; [reflexivity|].
      now rewrite like_upper. }
  rewrite (get_context_plain db (Some (map upper ts)) limit Hplain').
  rewrite (get_context_plain db (Some ts) limit Hplain).
  destruct ts as [|t ts]; [reflexivity|].
  cbn [map rows_for]. now rewrite (filter_ext _ _ Q).
Qed.

(** ** The prompt after an ingestion *)

(** X22: a source ingested at a time later than every stored timestamp
    heads the prompt assembled without tags: the text begins with "# ",
    its title, a newline, its text and a newline, for every limit
    from 1. *)
Theorem latest_ingest_heads_prompt (unicode_alnum : char -> bool) (fs : filesystem)
    (now : Z) (file_path raw : text) (db : database) (limit : Z) :
  fs file_path = Some (Readable raw) ->
  Forall (fun d => (timestamp d < now)%Z) (documents db) ->
  (1 <= limit < 2 ^ 63)%Z ->
  exists rest,
    inject_prompt_memory (snd (add_ftai_file unicode_alnum fs now file_path db))
      None limit
    = Some (Returns (py "# " ++ basename file_path ++ [NEWLINE] ++ raw
                     ++ [NEWLINE] ++ rest)).
Proof.
  intros H Hold Hl.
  rewrite (add_ftai_file_readable unicode_alnum fs now file_path raw db H).
  cbn [snd]. unfold inject_prompt_memory, get_context, insert_document.
  cbn [documents]. rewrite select_rows_nonneg by lia.
  rewrite order_by_newest_last by exact Hold.
  destruct (Z.to_nat limit) as [|k] eqn:K; [lia|].
  cbn [firstn map option_map outcome_map]. rewrite assemble_cons.
  cbn [title content]. unfold block. cbn [fst snd].
  eexists. rewrite <- !app_assoc. reflexivity.
Qed.

(** ** The further properties on the sample data *)

Lemma retrieved_entries_are_stored_witness :
  plain_request (Some [py "lore"]) = true
  /\ (- 2 ^ 63 <= 5 < 2 ^ 63)%Z
  /\ exists es,
       get_context sample_db (Some [py "lore"]) 5 = Some (Returns es)
       /\ (forall e, In e es ->
             exists d, In d (documents sample_db) /\ e = (title d, content d))
       /\ length es <= length (documents sample_db).
Proof.
  assert (H1 : plain_request (Some [py "lore"]) = true) by reflexivity.
  assert (H2 : (- 2 ^ 63 <= 5 < 2 ^ 63)%Z) by lia.
  split; [exact H1|]. split; [exact H2|].
  exact (retrieved_entries_are_stored sample_db (Some [py "lore"]) 5 H1 H2).
Defined.

Lemma limit_takes_prefix_witness :
  plain_request None = true
  /\ (- 2 ^ 63 <= -1 < 0)%Z
  /\ (0 <= 2 < 2 ^ 63)%Z
  /\ exists all_entries,
       get_context sample_db None (-1) = Some (Returns all_entries)
       /\ get_context sample_db None 2
          = Some (Returns (firstn (Z.to_nat 2) all_entries)).
Proof.
  assert (H1 : plain_request None = true) by reflexivity.
  assert (H2 : (- 2 ^ 63 <= -1 < 0)%Z) by lia.
  assert (H3 : (0 <= 2 < 2 ^ 63)%Z) by lia.
  split; [exact H1|]. split; [exact H2|]. split; [exact H3|].
  exact (limit_takes_prefix sample_db None (-1) 2 H1 H2 H3).
Defined.

Lemma substring_match_is_returned_witness :
  plain_tags [py "xb"] = true
  /\ In (py "xb") [py "xb"]
  /\ In sample_row_x (documents sample_db)
  /\ contains (py "xb") (tags sample_row_x)
  /\ (- 2 ^ 63 <= -1 < 0)%Z
  /\ exists es,
       get_context sample_db (Some [py "xb"]) (-1) = Some (Returns es)
       /\ In (title sample_row_x, content sample_row_x) es.
Proof.
  assert (H1 : plain_tags [py "xb"] = true) by reflexivity.
  assert (H2 : In (py "xb") [py "xb"]) by (left; reflexivity).
  assert (H3 : In sample_row_x (documents sample_db)) by (right; left; reflexivity).
  assert (H4 : contains (py "xb") (tags sample_row_x))
    by (exists (py "a"), (py ",LORE"); reflexivity).
  assert (H5 : (- 2 ^ 63 <= -1 < 0)%Z) by lia.
  split; [exact H1|]. split; [exact H2|]. split; [exact H3|].
  split; [exact H4|]. split; [exact H5|].
  exact (substring_match_is_returned sample_db [py "xb"] (py "xb") sample_row_x (-1)
           H1 H2 H3 H4 H5).
Defined.

Lemma empty_tag_matches_everything_witness :
  In [] [py "saga"; []]
  /\ plain_tags [py "saga"; []] = true
  /\ get_context sample_db (Some [py "saga"; []]) 2 = get_context sample_db None 2.
Proof.
  assert (H1 : In (@nil char) [py "saga"; []]) by (right; left; reflexivity).
  assert (H2 : plain_tags [py "saga"; []] = true) by reflexivity.
  split; [exact H1|]. split; [exact H2|].
  exact (empty_tag_matches_everything sample_db [py "saga"; []] 2 H1 H2).
Defined.

Lemma tag_order_is_irrelevant_witness :
  plain_tags [py "lore"; py "axb"] = true
  /\ plain_tags [py "axb"; py "lore"; py "axb"] = true
  /\ [py "lore"; py "axb"] <> []
  /\ (forall t, In t [py "lore"; py "axb"] <-> In t [py "axb"; py "lore"; py "axb"])
  /\ get_context sample_db (Some [py "lore"; py "axb"]) 5
     = get_context sample_db (Some [py "axb"; py "lore"; py "axb"]) 5.
Proof.
  assert (H0 : plain_tags [py "lore"; py "axb"] = true) by reflexivity.
  assert (H0' : plain_tags [py "axb"; py "lore"; py "axb"] = true) by reflexivity.
  assert (H1 : [py "lore"; py "axb"] <> []) by discriminate.
  assert (H2 : forall t, In t [py "lore"; py "axb"]
                         <-> In t [py "axb"; py "lore"; py "axb"]).
  { intros t. simpl. tauto. }
  split; [exact H0|]. split; [exact H0'|]. split; [exact H1|]. split; [exact H2|].
  exact (tag_order_is_irrelevant sample_db [py "lore"; py "axb"]
           [py "axb"; py "lore"; py "axb"] 5 H0 H0' H1 H2).
Defined.

Lemma unbounded_retrieval_only_grows_witness :
  plain_request (Some [py "lore"]) = true
  /\ (- 2 ^ 63 <= -1 < 0)%Z
  /\ exists es es',
       get_context sample_db (Some [py "lore"]) (-1) = Some (Returns es)
       /\ get_context
            (run_all ascii_only
               [Ingest sample_fs 400 (py "/notes/a.ftai"); Retrieve None 1;
                Ingest sample_fs 500 (py "/notes/missing.ftai")] sample_db)
            (Some [py "lore"]) (-1) = Some (Returns es')
       /\ incl es es'.
Proof.
  assert (H1 : plain_request (Some [py "lore"]) = true) by reflexivity.
  assert (H2 : (- 2 ^ 63 <= -1 < 0)%Z) by lia.
  split; [exact H1|]. split; [exact H2|].
  exact (unbounded_retrieval_only_grows ascii_only
           [Ingest sample_fs 400 (py "/notes/a.ftai"); Retrieve None 1;
            Ingest sample_fs 500 (py "/notes/missing.ftai")]
           sample_db (Some [py "lore"]) (-1) H1 H2).
Defined.

Lemma requested_tag_case_is_irrelevant_witness :
  plain_tags [py "Lore"; py "a_b"] = true
  /\ get_context sample_db (Some (map upper [py "Lore"; py "a_b"])) 5
     = get_context sample_db (Some [py "Lore"; py "a_b"]) 5.
Proof.
  assert (H : plain_tags [py "Lore"; py "a_b"] = true) by reflexivity.
  split; [exact H|].
  exact (requested_tag_case_is_irrelevant sample_db [py "Lore"; py "a_b"] 5 H).
Defined.

Lemma latest_ingest_is_first_witness :
  sample_fs (py "/notes/u.ftai") = Some (Readable (py "@unknown origin"))
  /\ Forall (fun d => (timestamp d < 400)%Z) (documents sample_db)
  /\ (1 <= 2 < 2 ^ 63)%Z
  /\ exists older,
       get_context (snd (add_ftai_file ascii_only sample_fs 400 (py "/notes/u.ftai")
                           sample_db)) None 2
       = Some (Returns ((basename (py "/notes/u.ftai"), py "@unknown origin") :: older)).
Proof.
  assert (H1 : sample_fs (py "/notes/u.ftai") = Some (Readable (py "@unknown origin")))
    by reflexivity.
  assert (H2 : Forall (fun d => (timestamp d < 400)%Z) (documents sample_db))
    by (repeat constructor).
  assert (H3 : (1 <= 2 < 2 ^ 63)%Z) by lia.
  split; [exact H1|]. split; [exact H2|]. split; [exact H3|].
  exact (latest_ingest_is_first ascii_only sample_fs 400 (py "/notes/u.ftai")
           (py "@unknown origin") sample_db 2 H1 H2 H3).
Defined.

Lemma stored_title_is_last_component_witness :
  sample_fs (py "/notes/a.ftai") = Some (Readable (py "@lore Serena discovers the bloom"))
  /\ exists d dir,
    documents (snd (add_ftai_file ascii_only sample_fs 400 (py "/notes/a.ftai") sample_db))
      = documents sample_db ++ [d]
    /\ py "/notes/a.ftai" = dir ++ title d
    /\ ~ In SLASH (title d)
    /\ (dir = [] \/ exists dir', dir = dir' ++ [SLASH]).
Proof.
  split; [reflexivity|].
  exact (stored_title_is_last_component ascii_only sample_fs 400 (py "/notes/a.ftai")
           (py "@lore Serena discovers the bloom") sample_db eq_refl).
Defined.

Lemma ingested_source_found_by_its_tags_witness :
  sample_fs (py "/notes/x.ftai") = Some (Readable (py "@axb then @LORE"))
  /\ In (py "LORE") (findall ascii_only (py "@axb then @LORE"))
  /\ plain_tags [py "LORE"] = true
  /\ (- 2 ^ 63 <= -1 < 0)%Z
  /\ exists es,
    get_context (snd (add_ftai_file ascii_only sample_fs 400 (py "/notes/x.ftai")
                        empty_db))
      (Some [py "LORE"]) (-1) = Some (Returns es)
    /\ In (basename (py "/notes/x.ftai"), py "@axb then @LORE") es.
Proof.
  assert (H2 : In (py "LORE") (findall ascii_only (py "@axb then @LORE")))
    by (right; left; reflexivity).
  assert (H3 : plain_tags [py "LORE"] = true) by reflexivity.
  assert (H4 : (- 2 ^ 63 <= -1 < 0)%Z) by lia.
  split; [reflexivity|]. split; [exact H2|]. split; [exact H3|]. split; [exact H4|].
  exact (ingested_source_found_by_its_tags ascii_only sample_fs 400
           (py "/notes/x.ftai") (py "@axb then @LORE") empty_db (py "LORE") (-1)
           eq_refl H2 H3 H4).
Defined.

Lemma rowids_stay_increasing_witness :
  StronglySorted Z.lt (map id (documents sample_db))
  /\ StronglySorted Z.lt
       (map id (documents
          (run_all ascii_only
             [Ingest sample_fs 400 (py "/notes/a.ftai");
              Ingest sample_fs 500 (py "/notes/u.ftai")] sample_db)))
  /\ NoDup
       (map id (documents
          (run_all ascii_only
             [Ingest sample_fs 400 (py "/notes/a.ftai");
              Ingest sample_fs 500 (py "/notes/u.ftai")] sample_db))).
Proof.
  assert (H : StronglySorted Z.lt (map id (documents sample_db)))
    by (repeat constructor).
  split; [exact H|].
  exact (rowids_stay_increasing ascii_only
           [Ingest sample_fs 400 (py "/notes/a.ftai");
            Ingest sample_fs 500 (py "/notes/u.ftai")] sample_db H).
Defined.

Lemma tags_of_joined_texts_witness :
  is_word ascii_only NEWLINE = false
  /\ NEWLINE <> AT
  /\ findall ascii_only (py "@lore one" ++ NEWLINE :: py "two @saga")
     = findall ascii_only (py "@lore one") ++ findall ascii_only (py "two @saga").
Proof.
  assert (H1 : is_word ascii_only NEWLINE = false) by reflexivity.
  assert (H2 : NEWLINE <> AT) by discriminate.
  split; [exact H1|]. split; [exact H2|].
  exact (tags_of_joined_texts ascii_only (py "@lore one") (py "two @saga") NEWLINE H1 H2).
Defined.

Lemma latest_ingest_heads_prompt_witness :
  sample_fs (py "/notes/u.ftai") = Some (Readable (py "@unknown origin"))
  /\ Forall (fun d => (timestamp d < 400)%Z) (documents sample_db)
  /\ (1 <= 2 < 2 ^ 63)%Z
  /\ exists rest,
       inject_prompt_memory
         (snd (add_ftai_file ascii_only sample_fs 400 (py "/notes/u.ftai") sample_db))
         None 2
       = Some (Returns (py "# " ++ basename (py "/notes/u.ftai") ++ [NEWLINE]
                        ++ py "@unknown origin" ++ [NEWLINE] ++ rest)).
Proof.
  assert (H1 : sample_fs (py "/notes/u.ftai") = Some (Readable (py "@unknown origin")))
    by reflexivity.
  assert (H2 : Forall (fun d => (timestamp d < 400)%Z) (documents sample_db))
    by (repeat constructor).
  assert (H3 : (1 <= 2 < 2 ^ 63)%Z) by lia.
  split; [exact H1|]. split; [exact H2|]. split; [exact H3|].
  exact (latest_ingest_heads_prompt ascii_only sample_fs 400 (py "/notes/u.ftai")
           (py "@unknown origin") sample_db 2 H1 H2 H3).
Defined.
